(** * ICON service: the SCORE container layer (icon_container_db.py)

    A shallow embedding of [iconservice/iconscore/icon_container_db.py]:
    the key/value codec, the version-2 key framing ([rlp_encode_bytes]),
    the prefix construction and the three containers [ArrayDB], [DictDB]
    and [VarDB], over a model of the state database they are handed.

    Conventions.
    - A Python [bytes] object is a [list byte]; a Python [int] is a [Z];
      a Python [str] is the list of its code points.
    - Code that can raise returns a [result]: [Ok v] or [Raise e].
    - The state database is shared and mutable in the source; here every
      operation takes the store and returns the new one. *)

From Stdlib Require Import ZArith Lia List Bool.
From Stdlib.Strings Require Import Byte.
From stdpp Require Import gmap strings list fin_maps.

Local Open Scope Z_scope.

(** ** Bytes *)

Abbreviation bytes := (list byte).

(** The integer value [b[i]] of a byte. *)
Definition byte_val (b : byte) : Z := Z.of_N (Byte.to_N b).

(** [bytes([n])[0]]: the byte of value [n], for [0 <= n < 256].  Python
    raises [ValueError] outside that range; the only call site that can
    leave it is the long-form header of [rlp_encode_bytes], for a payload
    of at least 256^72 bytes. *)
Definition byte_of (n : Z) : byte := default x00 (Byte.of_N (Z.to_N n)).

#[global] Instance byte_eq_dec : EqDecision byte := Byte.byte_eq_dec.
#[global] Instance byte_countable : Countable byte :=
  inj_countable Byte.to_N Byte.of_N Byte.of_to_N.

(** The unsigned big-endian value of a byte string
    ([int.from_bytes(b, 'big')]). *)
Definition be_value (b : bytes) : Z :=
  fold_left (fun acc x => acc * 256 + byte_val x) b 0.

(** [lb] is the big-endian representation of [n] in the fewest bytes: it
    denotes [n] and carries no leading zero byte. *)
Definition be_minimal (lb : bytes) (n : Z) : Prop :=
  be_value lb = n /\ (forall h t, lb = h :: t -> byte_val h <> 0).

(** ** Version-2 key framing *)

(** [rlp_get_bytes(x)]:
<<
    if x == 0: return b''
    else: return rlp_get_bytes(int(x / 256)) + bytes([x % 256])
>>
    [int(x / 256)] is Python's true division followed by truncation
    towards zero; for [|x| < 2^53] the quotient is exact and this is
    [Z.quot].  The recursion is on a counter that [rlp_get_bytes] sets
    high enough ([rlp_get_bytes_eq] is the source's equation). *)
Fixpoint rlp_get_bytes_rec (fuel : nat) (x : Z) : bytes :=
  match fuel with
  | O => []
  | S fuel' =>
      if x =? 0 then []
      else rlp_get_bytes_rec fuel' (Z.quot x 256) ++ [byte_of (x mod 256)]
  end.

Definition rlp_get_bytes (x : Z) : bytes :=
  rlp_get_bytes_rec (S (Z.to_nat (Z.log2 (Z.abs x)))) x.

(** [b[0] < 0x80], evaluated only when [len(b) == 1]. *)
Definition first_below_0x80 (b : bytes) : bool :=
  match b with
  | b0 :: _ => byte_val b0 <? 0x80
  | [] => false
  end.

Definition rlp_encode_bytes (b : bytes) : bytes :=
  let blen := Z.of_nat (length b) in
  if (blen =? 1) && first_below_0x80 b then b
  else if blen <=? 55 then byte_of (blen + 0x80) :: b
  else
    let len_bytes := rlp_get_bytes blen in
    byte_of (Z.of_nat (length len_bytes) + 0x80 + 55) :: len_bytes ++ b.

(** The single-byte passthrough case of the framing. *)
Definition passthrough (b : bytes) : Prop :=
  exists b0, b = [b0] /\ byte_val b0 < 0x80.

(** ** Exceptions and results *)

Inductive exn : Type :=
| InvalidParamsException (msg : string)
| InvalidContainerAccessException (msg : string)
| UnicodeEncodeError
| UnicodeDecodeError.

Inductive result (A : Type) : Type :=
| Ok (a : A)
| Raise (e : exn).
Arguments Ok {A} a.
Arguments Raise {A} e.

#[global] Instance result_ret : MRet result := fun A a => Ok a.
#[global] Instance result_bind : MBind result := fun A B f m =>
  match m with
  | Ok a => f a
  | Raise e => Raise e
  end.

(** ** Python values and classes *)

(** Modelled from the spec: the [Address] class (iconservice/base/address.py)
    is not among the sources.  The spec gives an address a "fixed-width
    byte representation" ([to_bytes]) and lets decoding "reinterpret the
    bytes under expected_type; no validation" ([from_bytes]); an address is
    carried here as that representation. *)
Record Address : Type := mkAddress { address_body : bytes }.

Definition Address_to_bytes (a : Address) : bytes := address_body a.
Definition Address_from_bytes (buf : bytes) : Address := mkAddress buf.

(** The objects that reach the container layer.  A [str] is the list of
    its code points; [PyOther cls] is an instance of any other class. *)
Inductive pyobj : Type :=
| PyNone
| PyInt (n : Z)
| PyBool (b : bool)
| PyStr (s : list Z)
| PyAddress (a : Address)
| PyBytes (b : bytes)
| PyOther (cls : string).

(** The classes passed as [value_type]. *)
Inductive pytype : Type :=
| TInt | TStr | TAddress | TBool | TBytes
| TOther (name : string).

(** [type(o)]. *)
Definition type_of (o : pyobj) : pytype :=
  match o with
  | PyNone => TOther "NoneType"
  | PyInt _ => TInt
  | PyBool _ => TBool
  | PyStr _ => TStr
  | PyAddress _ => TAddress
  | PyBytes _ => TBytes
  | PyOther cls => TOther cls
  end.

Definition type_name (t : pytype) : string :=
  match t with
  | TInt => "int" | TStr => "str" | TAddress => "Address"
  | TBool => "bool" | TBytes => "bytes" | TOther n => n
  end.

(** [isinstance(o, int)]: [bool] is a subclass of [int]. *)
Definition isinstance_int (o : pyobj) : bool :=
  match o with
  | PyInt _ | PyBool _ => true
  | _ => false
  end.

(** The integer an [int] instance denotes ([True] is 1, [False] is 0). *)
Definition int_of (o : pyobj) : Z :=
  match o with
  | PyInt n => n
  | PyBool b => Z.b2z b
  | _ => 0
  end.

(** The code points of a literal ([str] literals of the source are ASCII). *)
Definition pystr (s : string) : list Z :=
  map (fun a => Z.of_N (Ascii.N_of_ascii a)) (String.list_ascii_of_string s).

(** ** Integer codec *)

(** Modelled from the spec: iconservice/utils ([int_to_bytes],
    [bytes_to_int], [byte_length_of_int]) is not among the sources.  The
    spec: "integer -> minimal two's-complement big-endian bytes";
    tests/legacy_unittest/test_utils.py fixes the lengths
    ([byte_length_of_int(-0x80 << 8*i) == 1 + i],
    [byte_length_of_int(0x80 << 8*i) == 2 + i]) and the leading bytes. *)
Definition bit_length (n : Z) : Z :=
  if n =? 0 then 0 else Z.log2 (Z.abs n) + 1.

Definition byte_length_of_int (n : Z) : Z :=
  let m := if n <? 0 then n + 1 else n in
  (bit_length m + 8) / 8.

(** [n.to_bytes(len, 'big', signed=True)] for an [n] that fits. *)
Fixpoint to_bytes_big (len : nat) (n : Z) : bytes :=
  match len with
  | O => []
  | S len' => to_bytes_big len' (n / 256) ++ [byte_of (n mod 256)]
  end.

Definition int_to_bytes (n : Z) : bytes :=
  to_bytes_big (Z.to_nat (byte_length_of_int n)) n.

(** [int.from_bytes(v, 'big', signed=True)]. *)
Definition bytes_to_int (v : bytes) : Z :=
  let u := be_value v in
  let m := 256 ^ Z.of_nat (length v) in
  if m <=? 2 * u then u - m else u.

(** ** UTF-8 ([str.encode('utf-8')], [bytes.decode()]) *)

Definition is_surrogate (c : Z) : bool := (0xD800 <=? c) && (c <? 0xE000).

(** The code points that have a UTF-8 form: the Unicode scalar values. *)
Definition is_scalar (c : Z) : bool :=
  (0 <=? c) && (c <? 0x110000) && negb (is_surrogate c).

Definition utf8_encode_cp (c : Z) : result bytes :=
  if negb (is_scalar c) then Raise UnicodeEncodeError
  else if c <? 0x80 then Ok [byte_of c]
  else if c <? 0x800 then
    Ok [byte_of (0xC0 + c / 64); byte_of (0x80 + c mod 64)]
  else if c <? 0x10000 then
    Ok [byte_of (0xE0 + c / 4096); byte_of (0x80 + (c / 64) mod 64);
        byte_of (0x80 + c mod 64)]
  else
    Ok [byte_of (0xF0 + c / 262144); byte_of (0x80 + (c / 4096) mod 64);
        byte_of (0x80 + (c / 64) mod 64); byte_of (0x80 + c mod 64)].

Fixpoint str_encode (s : list Z) : result bytes :=
  match s with
  | [] => Ok []
  | c :: s' =>
      match utf8_encode_cp c, str_encode s' with
      | Ok b, Ok r => Ok (b ++ r)
      | Raise e, _ => Raise e
      | _, Raise e => Raise e
      end
  end.

(** The payload of a continuation byte (10xxxxxx), if it is one. *)
Definition cont_bits (b : byte) : option Z :=
  let x := byte_val b in
  if (0x80 <=? x) && (x <? 0xC0) then Some (x - 0x80) else None.

(** Strict decoding: ill-formed sequences, overlong forms, surrogates and
    code points above U+10FFFF raise [UnicodeDecodeError]. *)
Fixpoint bytes_decode (v : bytes) : result (list Z) :=
  match v with
  | [] => Ok []
  | b0 :: v1 =>
      let x0 := byte_val b0 in
      if x0 <? 0x80 then
        match bytes_decode v1 with
        | Ok s => Ok (x0 :: s)
        | Raise e => Raise e
        end
      else if x0 <? 0xC0 then Raise UnicodeDecodeError
      else if x0 <? 0xE0 then
        match v1 with
        | b1 :: v2 =>
            match cont_bits b1 with
            | Some y1 =>
                let c := (x0 - 0xC0) * 64 + y1 in
                if 0x80 <=? c then
                  match bytes_decode v2 with
                  | Ok s => Ok (c :: s)
                  | Raise e => Raise e
                  end
                else Raise UnicodeDecodeError
            | None => Raise UnicodeDecodeError
            end
        | _ => Raise UnicodeDecodeError
        end
      else if x0 <? 0xF0 then
        match v1 with
        | b1 :: b2 :: v3 =>
            match cont_bits b1, cont_bits b2 with
            | Some y1, Some y2 =>
                let c := (x0 - 0xE0) * 4096 + y1 * 64 + y2 in
                if (0x800 <=? c) && negb (is_surrogate c) then
                  match bytes_decode v3 with
                  | Ok s => Ok (c :: s)
                  | Raise e => Raise e
                  end
                else Raise UnicodeDecodeError
            | _, _ => Raise UnicodeDecodeError
            end
        | _ => Raise UnicodeDecodeError
        end
      else if x0 <? 0xF8 then
        match v1 with
        | b1 :: b2 :: b3 :: v4 =>
            match cont_bits b1, cont_bits b2, cont_bits b3 with
            | Some y1, Some y2, Some y3 =>
                let c := (x0 - 0xF0) * 262144 + y1 * 4096 + y2 * 64 + y3 in
                if (0x10000 <=? c) && (c <? 0x110000) then
                  match bytes_decode v4 with
                  | Ok s => Ok (c :: s)
                  | Raise e => Raise e
                  end
                else Raise UnicodeDecodeError
            | _, _, _ => Raise UnicodeDecodeError
            end
        | _ => Raise UnicodeDecodeError
        end
      else Raise UnicodeDecodeError
  end.

(** ** Key/value codec ([ContainerUtil]) *)

Definition ARRAY_DB_ID : bytes := [x00].
Definition DICT_DB_ID : bytes := [x01].
Definition VAR_DB_ID : bytes := [x02].

(** [f'... {type(o)}'] *)
Definition type_repr (o : pyobj) : string :=
  "<class '" +:+ type_name (type_of o) +:+ "'>".

Definition encode_key (key : pyobj) : result bytes :=
  match key with
  | PyNone => Raise (InvalidParamsException "key is None")
  | PyInt n => Ok (int_to_bytes n)
  | PyBool b => Ok (int_to_bytes (Z.b2z b)) (* isinstance(key, int) *)
  | PyStr s => str_encode s
  | PyAddress a => Ok (Address_to_bytes a)
  | PyBytes b => Ok b
  | PyOther _ =>
      Raise (InvalidParamsException ("Unsupported key type: " +:+ type_repr key))
  end.

(** The [isinstance(value, bool)] branch of the source comes after the
    [isinstance(value, int)] one, which already takes every [bool]. *)
Definition encode_value (value : pyobj) : result bytes :=
  match value with
  | PyInt n => Ok (int_to_bytes n)
  | PyBool b => Ok (int_to_bytes (Z.b2z b)) (* isinstance(value, int) *)
  | PyStr s => str_encode s
  | PyAddress a => Ok (Address_to_bytes a)
  | PyBytes b => Ok b
  | PyNone | PyOther _ =>
      Raise (InvalidParamsException ("Unsupported value type: " +:+ type_repr value))
  end.

Definition get_default_value (value_type : pytype) : pyobj :=
  match value_type with
  | TInt => PyInt 0
  | TStr => PyStr []
  | TBool => PyBool false
  | _ => PyNone
  end.

(** [bool(n)] for an [int]. *)
Definition bool_of_int (n : Z) : bool := negb (n =? 0).

(** [decode_object(value, value_type)]; [value] is [None] or a byte
    string.  The source runs two chains, [if int / elif str / elif
    Address] and then [if bool / elif bytes]; the classes are distinct,
    so at most one branch assigns [obj_value], which starts as [None]. *)
Definition decode_object (value : option bytes) (value_type : pytype)
  : result pyobj :=
  match value with
  | None => Ok (get_default_value value_type)
  | Some value =>
      match value_type with
      | TInt => Ok (PyInt (bytes_to_int value))
      | TStr => s ← bytes_decode value; Ok (PyStr s)
      | TAddress => Ok (PyAddress (Address_from_bytes value))
      | TBool => Ok (PyBool (bool_of_int (bytes_to_int value)))
      | TBytes => Ok (PyBytes value)
      | TOther _ => Ok PyNone
      end
  end.

Definition get_encoded_key_v1 (key : pyobj) : result bytes := encode_key key.

Definition get_encoded_key_v2 (key : pyobj) : result bytes :=
  bytes_key ← encode_key key; Ok (rlp_encode_bytes bytes_key).

(** ** The state database *)

(** The two key-encoding schemes. *)
Inductive Scheme : Type := V1 | V2.

(** What the containers hand to the database: one list of byte strings
    per scheme, [[[...v1...], [...v2...]]]. *)
Record candidates : Type := mkCandidates {
  cand_v1 : list bytes;
  cand_v2 : list bytes
}.

(** [[[get_encoded_key_v1(key)], [get_encoded_key_v2(key)]]] *)
Definition key_candidates (key : pyobj) : result candidates :=
  k1 ← get_encoded_key_v1 key;
  k2 ← get_encoded_key_v2 key;
  Ok (mkCandidates [k1] [k2]).

(** Modelled from the spec: the database classes (iconservice/database/db.py:
    [IconScoreDatabase], [IconScoreSubDatabase]) are not among the sources.
    The spec: the store "exposes [get(key) -> bytes?], [put(key, value)],
    [delete(key)], and [sub_view(prefix_candidates) -> View], where a View
    is a namespaced handle that transparently prepends its prefix to every
    operation and can itself be further namespaced"; "two candidate
    regions are always produced in parallel (one per encoding scheme) and
    handed to the underlying store together, letting the store resolve
    against whichever scheme its existing data was written with, while
    controlling independently which scheme new writes use"; the store
    "resolves them against whichever scheme is active for that location
    (first match wins; if neither exists, the store's currently-configured
    write scheme is used for new data)"; "rather than versioning at the
    store level, every region lookup offers two candidate byte-string
    prefixes", the scheme being "resolved once per region by the store
    (first-match-wins on read, configured-default on write)"; the
    [is_root] flag "distinguishes a direct store handle from an
    already-namespaced handle".

    A [Store] is the scheme configured for new data ([write_scheme]), the
    scheme active for each location that has one ([active]: a region
    prefix and the scheme its existing data was written with) and the
    stored byte strings under their full keys ([data]).  A [Database] is a
    handle: the two candidate prefixes of its region, one per scheme.  The
    store "never stores an explicit no-value marker": an absent key reads
    as [None]. *)
Record Store : Type := mkStore {
  write_scheme : Scheme;
  active : gmap bytes Scheme;
  data : gmap bytes bytes
}.

Record Database : Type := mkDatabase {
  is_root : bool;
  prefix_v1 : bytes;
  prefix_v2 : bytes
}.

(** A handle directly on the store. *)
Definition root_db : Database := mkDatabase true [] [].

Definition get_sub_db (db : Database) (prefix : candidates) : Database :=
  mkDatabase false
    (prefix_v1 db ++ concat (cand_v1 prefix))
    (prefix_v2 db ++ concat (cand_v2 prefix)).

(** Modelled from the spec: the scheme the store resolves the region of
    [db] under ("first match wins; if neither exists, the store's
    currently-configured write scheme is used").  The candidates are tried
    in the order they are handed over, version 1 first: the first
    candidate that is a location active under its own scheme wins; if
    neither is, it is the scheme configured for new data.  The scheme is
    resolved per region, so two regions of one store can resolve under
    different schemes, and every key of one region is resolved under the
    scheme of the region. *)
Definition resolve (st : Store) (db : Database) : Scheme :=
  match active st !! prefix_v1 db with
  | Some V1 => V1
  | _ =>
      match active st !! prefix_v2 db with
      | Some V2 => V2
      | _ => write_scheme st
      end
  end.

(** The full key of [key] seen through [db], under scheme [s]. *)
Definition full_key (s : Scheme) (db : Database) (key : candidates) : bytes :=
  match s with
  | V1 => prefix_v1 db ++ concat (cand_v1 key)
  | V2 => prefix_v2 db ++ concat (cand_v2 key)
  end.

(** The full key of [key] in the region of [db] as [st] resolves it. *)
Definition location (st : Store) (db : Database) (key : candidates) : bytes :=
  full_key (resolve st db) db key.

(** Modelled from the spec: [get], [put] and [delete] through a handle,
    which "transparently prepends its prefix to every operation".  They
    act on the stored byte strings only: the configured write scheme and
    the schemes active for the locations are the store's own and stay as
    they are. *)
Definition db_get (st : Store) (db : Database) (key : candidates)
  : option bytes :=
  data st !! location st db key.

Definition db_put (st : Store) (db : Database) (key : candidates)
    (value : bytes) : Store :=
  mkStore (write_scheme st) (active st)
    (<[location st db key := value]> (data st)).

Definition db_delete (st : Store) (db : Database) (key : candidates) : Store :=
  mkStore (write_scheme st) (active st)
    (delete (location st db key) (data st)).

(** ** Prefix construction *)

Inductive container_cls : Type := ArrayDB_cls | DictDB_cls | VarDB_cls.

Definition cls_name (c : container_cls) : string :=
  match c with
  | ArrayDB_cls => "ArrayDB" | DictDB_cls => "DictDB" | VarDB_cls => "VarDB"
  end.

Definition create_db_prefix (cls : container_cls) (var_key : pyobj)
  : result candidates :=
  match
    match cls with
    | ArrayDB_cls => Ok ARRAY_DB_ID
    | DictDB_cls => Ok DICT_DB_ID
    | _ => Raise (InvalidParamsException
                    ("Unsupported container class: <class '" +:+ cls_name cls +:+ "'>"))
    end
  with
  | Raise e => Raise e
  | Ok container_id =>
      k1 ← get_encoded_key_v1 var_key;
      k2 ← get_encoded_key_v2 var_key;
      Ok (mkCandidates [container_id; k1] [container_id; k2])
  end.

(** ** ArrayDB *)

Record ArrayDB : Type := mkArrayDB {
  a_db : Database;           (* self._db *)
  a_value_type : pytype;     (* self.__value_type *)
  a_size : Z                 (* self.__size *)
}.

(** [__SIZE_BYTE_KEY = [[get_encoded_key_v1('size')], [b'']]] *)
Definition SIZE_BYTE_KEY : result candidates :=
  k1 ← get_encoded_key_v1 (PyStr (pystr "size"));
  Ok (mkCandidates [k1] [[]]).

(** [__get_size_from_db]: [decode_object(..., int)] is always an [int]. *)
Definition ArrayDB_get_size_from_db (db : Database) (st : Store) : result Z :=
  key ← SIZE_BYTE_KEY;
  size ← decode_object (db_get st db key) TInt;
  Ok (int_of size).

Definition ArrayDB_init (var_key : pyobj) (db : Database)
    (value_type : pytype) (st : Store) : result ArrayDB :=
  prefix ← create_db_prefix ArrayDB_cls var_key;
  let sub := get_sub_db db prefix in
  size ← ArrayDB_get_size_from_db sub st;
  Ok (mkArrayDB sub value_type size).

(** [__set_size] *)
Definition ArrayDB_set_size (self : ArrayDB) (size : Z) (st : Store)
  : result (ArrayDB * Store) :=
  let self := mkArrayDB (a_db self) (a_value_type self) size in
  value ← encode_value (PyInt size);
  key ← SIZE_BYTE_KEY;
  Ok (self, db_put st (a_db self) key value).

(** [__put] *)
Definition ArrayDB_put_at (self : ArrayDB) (index : pyobj) (value : pyobj)
    (st : Store) : result Store :=
  key ← key_candidates index;
  value ← encode_value value;
  Ok (db_put st (a_db self) key value).

Definition ArrayDB_put (self : ArrayDB) (value : pyobj) (st : Store)
  : result (ArrayDB * Store) :=
  let size := a_size self in
  st ← ArrayDB_put_at self (PyInt size) value st;
  ArrayDB_set_size self (size + 1) st.

(** [index += size] when [index < 0] *)
Definition normalize_index (size : Z) (index : pyobj) : pyobj :=
  if int_of index <? 0 then PyInt (int_of index + size) else index.

Definition in_range (size : Z) (index : pyobj) : bool :=
  (0 <=? int_of index) && (int_of index <? size).

(** [_get(db, size, index, value_type)] *)
Definition ArrayDB_get_ (db : Database) (size : Z) (index : pyobj)
    (value_type : pytype) (st : Store) : result pyobj :=
  if negb (isinstance_int index) then
    Raise (InvalidParamsException "Invalid index type: not an integer")
  else
    let index := normalize_index size index in
    if in_range size index then
      key ← key_candidates index;
      decode_object (db_get st db key) value_type
    else Raise (InvalidParamsException "ArrayDB out of index").

(** [__getitem__] *)
Definition ArrayDB_getitem (self : ArrayDB) (index : pyobj) (st : Store)
  : result pyobj :=
  ArrayDB_get_ (a_db self) (a_size self) index (a_value_type self) st.

(** [get(index)] *)
Definition ArrayDB_get (self : ArrayDB) (index : pyobj) (st : Store)
  : result pyobj :=
  ArrayDB_getitem self index st.

(** [__setitem__] *)
Definition ArrayDB_setitem (self : ArrayDB) (index : pyobj) (value : pyobj)
    (st : Store) : result Store :=
  if negb (isinstance_int index) then
    Raise (InvalidParamsException "Invalid index type: not an integer")
  else
    let size := a_size self in
    let index := normalize_index size index in
    if in_range size index then ArrayDB_put_at self index value st
    else Raise (InvalidParamsException "ArrayDB out of index").

Definition ArrayDB_pop (self : ArrayDB) (st : Store)
  : result (pyobj * ArrayDB * Store) :=
  let size := a_size self in
  if size =? 0 then Ok (PyNone, self, st)
  else
    let index := size - 1 in
    last_val ← ArrayDB_getitem self (PyInt index) st;
    key ← key_candidates (PyInt index);
    let st := db_delete st (a_db self) key in
    '(self, st) ← ArrayDB_set_size self index st;
    Ok (last_val, self, st).

(** [__len__] *)
Definition ArrayDB_len (self : ArrayDB) : Z := a_size self.

(** [range(size)] *)
Definition py_range (size : Z) : list Z :=
  map Z.of_nat (seq 0 (Z.to_nat size)).

(** [list(self)]: the generator of [_get_generator] run to its end
    against one store. *)
Fixpoint ArrayDB_gen (db : Database) (size : Z) (value_type : pytype)
    (st : Store) (indices : list Z) : result (list pyobj) :=
  match indices with
  | [] => Ok []
  | index :: rest =>
      v ← ArrayDB_get_ db size (PyInt index) value_type st;
      vs ← ArrayDB_gen db size value_type st rest;
      Ok (v :: vs)
  end.

Definition ArrayDB_iter (self : ArrayDB) (st : Store) : result (list pyobj) :=
  ArrayDB_gen (a_db self) (a_size self) (a_value_type self) st
    (py_range (a_size self)).

(** ** VarDB *)

Record VarDB : Type := mkVarDB {
  v_db : Database;
  v_var_byte_key : candidates;
  v_value_type : pytype
}.

Definition VarDB_init (var_key : pyobj) (db : Database) (value_type : pytype)
  : result VarDB :=
  let sub := get_sub_db db (mkCandidates [VAR_DB_ID] [VAR_DB_ID]) in
  key ← key_candidates var_key;
  Ok (mkVarDB sub key value_type).

Definition VarDB_set (self : VarDB) (value : pyobj) (st : Store)
  : result Store :=
  byte_value ← encode_value value;
  Ok (db_put st (v_db self) (v_var_byte_key self) byte_value).

Definition VarDB_get (self : VarDB) (st : Store) : result pyobj :=
  decode_object (db_get st (v_db self) (v_var_byte_key self))
    (v_value_type self).

Definition VarDB_remove (self : VarDB) (st : Store) : Store :=
  db_delete st (v_db self) (v_var_byte_key self).

(** ** DictDB *)

Record DictDB : Type := mkDictDB {
  d_db : Database;
  d_value_type : pytype;
  d_depth : Z
}.

Definition DictDB_init (var_key : pyobj) (db : Database)
    (value_type : pytype) (depth : Z) : result DictDB :=
  prefix ← (if is_root db
            then create_db_prefix DictDB_cls var_key
            else key_candidates var_key);
  Ok (mkDictDB (get_sub_db db prefix) value_type depth).

Definition depth_mismatch : exn :=
  InvalidContainerAccessException "DictDB depth mismatch".

(** [__setitem__] *)
Definition DictDB_setitem (self : DictDB) (key value : pyobj) (st : Store)
  : result Store :=
  if negb (d_depth self =? 1) then Raise depth_mismatch
  else
    encoded_key ← key_candidates key;
    encoded_value ← encode_value value;
    Ok (db_put st (d_db self) encoded_key encoded_value).

(** What [__getitem__] returns: a stored value or a nested [DictDB]. *)
Inductive dict_item : Type :=
| ItemValue (v : pyobj)
| ItemDict (d : DictDB).

(** [__getitem__] *)
Definition DictDB_getitem (self : DictDB) (key : pyobj) (st : Store)
  : result dict_item :=
  if d_depth self =? 1 then
    encoded_key ← key_candidates key;
    v ← decode_object (db_get st (d_db self) encoded_key) (d_value_type self);
    Ok (ItemValue v)
  else
    d ← DictDB_init key (d_db self) (d_value_type self) (d_depth self - 1);
    Ok (ItemDict d).

(** [__remove] *)
Definition DictDB_remove_ (self : DictDB) (key : pyobj) (st : Store)
  : result Store :=
  if negb (d_depth self =? 1) then Raise depth_mismatch
  else
    k ← key_candidates key;
    Ok (db_delete st (d_db self) k).

(** [remove] and [__delitem__] *)
Definition DictDB_remove (self : DictDB) (key : pyobj) (st : Store)
  : result Store := DictDB_remove_ self key st.

Definition DictDB_delitem (self : DictDB) (key : pyobj) (st : Store)
  : result Store := DictDB_remove_ self key st.

(** [__contains__] *)
Definition DictDB_contains (self : DictDB) (key : pyobj) (st : Store)
  : result bool :=
  k ← key_candidates key;
  Ok (bool_decide (is_Some (db_get st (d_db self) k))).

(** [__iter__] *)
Definition DictDB_iter (self : DictDB) : result (list pyobj) :=
  Raise (InvalidContainerAccessException "Iteration not supported in DictDB").

(** ** Sequences of operations on an [ArrayDB] *)

Inductive array_op : Type :=
| Append (value : pyobj)             (* put(value) *)
| Pop                                (* pop() *)
| SetItem (index value : pyobj).     (* self[index] = value *)

(** One call made by a caller that goes on after an exception.  Every
    exception of these three methods is raised before their first write
    ([ArrayDB_put_raises], [ArrayDB_pop_raises]), so a failed call leaves the
    container and the store as they were. *)
Definition array_step (op : array_op) (self : ArrayDB) (st : Store)
  : result pyobj * ArrayDB * Store :=
  match op with
  | Append value =>
      match ArrayDB_put self value st with
      | Ok (self', st') => (Ok PyNone, self', st')
      | Raise e => (Raise e, self, st)
      end
  | Pop =>
      match ArrayDB_pop self st with
      | Ok (v, self', st') => (Ok v, self', st')
      | Raise e => (Raise e, self, st)
      end
  | SetItem index value =>
      match ArrayDB_setitem self index value st with
      | Ok st' => (Ok PyNone, self, st')
      | Raise e => (Raise e, self, st)
      end
  end.

(** The calls of [ops] in order; the outcomes come back in call order. *)
Fixpoint array_run (ops : list array_op) (self : ArrayDB) (st : Store)
  : list (result pyobj) * ArrayDB * Store :=
  match ops with
  | [] => ([], self, st)
  | op :: ops' =>
      let '(r, self1, st1) := array_step op self st in
      let '(rs, self2, st2) := array_run ops' self1 st1 in
      (r :: rs, self2, st2)
  end.




Definition is_pop (op : array_op) : bool :=
  match op with Pop => true | _ => false end.



(** A value of the container's element type that [encode_value] accepts
    (for a [str]: one that has a UTF-8 form). *)
Definition value_ok (value_type : pytype) (v : pyobj) : Prop :=
  type_of v = value_type /\ exists b, encode_value v = Ok b.


(** The prefix of a handle under scheme [s]. *)
Definition db_prefix (s : Scheme) (db : Database) : bytes :=
  match s with V1 => prefix_v1 db | V2 => prefix_v2 db end.

(** The prefix of the region of [db] as [st] resolves it. *)
Definition region (st : Store) (db : Database) : bytes :=
  db_prefix (resolve st db) db.


(** The index whose version-1 key is the four bytes of ['size']. *)
Definition size_collision_index : Z := 1936292453.

(** The byte strings whose length the framing divides exactly. *)
Definition framable (b : bytes) : Prop := Z.of_nat (length b) < 2 ^ 53.

(** The cached size agrees with the persisted one. *)
Definition size_in_sync (self : ArrayDB) (st : Store) : Prop :=
  ArrayDB_get_size_from_db (a_db self) st = Ok (a_size self).

(** ** Vocabulary of the statements *)

(** The five classes a container can hold. *)
Definition supported_type (t : pytype) : bool :=
  match t with
  | TInt | TStr | TAddress | TBool | TBytes => true
  | TOther _ => false
  end.

(** A [str] made of Unicode scalar values; any object that is not a [str]. *)
Definition str_valid (o : pyobj) : Prop :=
  match o with
  | PyStr s => Forall (fun c => is_scalar c = true) s
  | _ => True
  end.

(** The four kinds of key: [int], [str], [Address], [bytes]. *)
Definition logical_key (key : pyobj) : Prop :=
  match key with
  | PyInt _ | PyAddress _ | PyBytes _ => True
  | PyStr _ => str_valid key
  | _ => False
  end.

(** The candidates of the integer key [i]. *)
Definition elem_candidates (i : Z) : candidates :=
  mkCandidates [int_to_bytes i] [rlp_encode_bytes (int_to_bytes i)].

(** The 4 bytes of ['size'] and the candidates of the reserved key. *)
Definition size_bytes : bytes := [x73; x69; x7a; x65].
Definition size_candidates : candidates := mkCandidates [size_bytes] [[]].


(** What a key contributes to a prefix under scheme [s]: its encoded
    form under V1, the frame of its encoded form under V2. *)
Definition key_form (s : Scheme) (a : bytes) : bytes :=
  match s with V1 => a | V2 => rlp_encode_bytes a end.

(** Neither byte string starts with the other. *)
Definition apart (x y : bytes) : Prop :=
  ~ x `prefix_of` y /\ ~ y `prefix_of` x.

(** Encoded keys [a] and [b] that keep apart the two regions they name
    below [db] (after the bytes [tag]), the first region being resolved
    under [sa] and the second under [sb].  Both under V2 (self-delimiting
    frames): different byte strings, each short enough to be framed
    exactly.  Both under V1 (bare concatenation): byte strings neither of
    which starts with the other.  Under two different schemes: region
    prefixes neither of which starts with the other. *)
Definition separate (db : Database) (tag : bytes) (sa sb : Scheme)
    (a b : bytes) : Prop :=
  match sa, sb with
  | V2, V2 => a <> b /\ framable a /\ framable b
  | V1, V1 => apart a b
  | _, _ => apart (db_prefix sa db ++ tag ++ key_form sa a)
                  (db_prefix sb db ++ tag ++ key_form sb b)
  end.

(** ** ArrayDB membership *)



(** ** Whole containers ([put_to_db], [get_from_db]) *)

(** What [put_to_db] is handed: a [dict] (its items in iteration order), a
    [list], [set] or [tuple] (its elements in iteration order), or any
    other object. *)
#[warnings="-register-all"] Inductive pyvalue : Type :=
| PLeaf (v : pyobj)
| PDict (items : list (pyobj * pyvalue))
| PSeq (items : list pyvalue).

(** The body of the loop of [__put_to_db_internal] for one pair
    [(key, value)], in the database [db]; the two inner loops are the
    recursive calls on [value.items()] and on [enumerate(value)].  An
    exception ends the loops; what was written before it stays written,
    so the store comes back with the exception. *)
Fixpoint put_pair (db : Database) (key : pyobj) (value : pyvalue) (st : Store)
    {struct value} : Store * option exn :=
  match key_candidates key with
  | Raise e => (st, Some e)
  | Ok db_key =>
      let sub_db := get_sub_db db db_key in
      match value with
      | PDict items =>
          (fix loop (items : list (pyobj * pyvalue)) (st : Store) :=
             match items with
             | [] => (st, None)
             | (k, v) :: rest =>
                 match put_pair sub_db k v st with
                 | (st1, None) => loop rest st1
                 | raised => raised
                 end
             end) items st
      | PSeq items =>
          (fix loop (i : Z) (items : list pyvalue) (st : Store) :=
             match items with
             | [] => (st, None)
             | v :: rest =>
                 match put_pair sub_db (PyInt i) v st with
                 | (st1, None) => loop (i + 1) rest st1
                 | raised => raised
                 end
             end) 0 items st
      | PLeaf v =>
          match encode_value v with
          | Raise e => (st, Some e)
          | Ok db_value => (db_put st db db_key db_value, None)
          end
      end
  end.

(** [__put_to_db_internal(db, iters)] *)
Fixpoint put_to_db_internal (db : Database) (iters : list (pyobj * pyvalue))
    (st : Store) : Store * option exn :=
  match iters with
  | [] => (st, None)
  | (key, value) :: rest =>
      match put_pair db key value st with
      | (st1, None) => put_to_db_internal db rest st1
      | raised => raised
      end
  end.

(** [enumerate(container)], counting from [start]. *)
Fixpoint enumerate_from (start : Z) (items : list pyvalue)
  : list (pyobj * pyvalue) :=
  match items with
  | [] => []
  | v :: rest => (PyInt start, v) :: enumerate_from (start + 1) rest
  end.

(** [put_to_db(db, db_key, container)]: the sub-database of [db_key]
    carries no container tag; a container that is neither a [dict] nor a
    [list], [set] or [tuple] is passed over. *)
Definition put_to_db (db : Database) (db_key : pyobj) (container : pyvalue)
    (st : Store) : Store * option exn :=
  match key_candidates db_key with
  | Raise e => (st, Some e)
  | Ok prefix =>
      let sub_db := get_sub_db db prefix in
      match container with
      | PDict items => put_to_db_internal sub_db items st
      | PSeq items => put_to_db_internal sub_db (enumerate_from 0 items) st
      | PLeaf _ => (st, None)
      end
  end.

(** [for arg in args: sub_db = sub_db.get_sub_db(...)] *)
Fixpoint descend (db : Database) (args : list pyobj) : result Database :=
  match args with
  | [] => Ok db
  | arg :: rest =>
      k ← key_candidates arg;
      descend (get_sub_db db k) rest
  end.

(** [get_from_db(db, db_key, *args, value_type)] after its unpacking
    [*args, last_arg = args]: [args] are the positional arguments but the
    last, [last_arg] the last one.  (With no positional argument the
    unpacking raises before any access; that call is not represented.) *)
Definition get_from_db (db : Database) (db_key : pyobj) (args : list pyobj)
    (last_arg : pyobj) (value_type : pytype) (st : Store) : result pyobj :=
  prefix ← key_candidates db_key;
  sub_db ← descend (get_sub_db db prefix) args;
  k ← key_candidates last_arg;
  match db_get st sub_db k with
  | None => Ok (get_default_value value_type)
  | Some byte_key => decode_object (Some byte_key) value_type
  end.

(** The dict [{a1: {a2: ... {last: v}}}] along a path of keys. *)
Fixpoint nested_dict (path : list pyobj) (last : pyobj) (v : pyobj) : pyvalue :=
  match path with
  | [] => PDict [(last, PLeaf v)]
  | a :: rest => PDict [(a, nested_dict rest last v)]
  end.

(** [encode_key] accepts every key of the list. *)
Definition keys_encode (keys : list pyobj) : Prop :=
  Forall (fun k => exists b, encode_key k = Ok b) keys.

(** ** Proof automation *)

(** Case analysis on every integer comparison of the goal. *)
Ltac split_ltb :=
  repeat match goal with
    | |- context [Z.ltb ?a ?b] => destruct (Z.ltb_spec a b); try lia
    | |- context [Z.leb ?a ?b] => destruct (Z.leb_spec a b); try lia
    end.


(** * Bytes *)

Lemma byte_val_range (b : byte) : 0 <= byte_val b < 256.
Proof.
  unfold byte_val. pose proof (Byte.to_N_bounded b). lia.
Qed.

Lemma byte_val_of (n : Z) : 0 <= n < 256 -> byte_val (byte_of n) = n.
Proof.
  intros Hn. unfold byte_val, byte_of.
  pose proof (Byte.to_of_N_option_map (Z.to_N n)) as H.
  destruct (Byte.of_N (Z.to_N n)) as [b|]; simpl in *.
  - destruct (N.leb_spec (Z.to_N n) 255); [|discriminate].
    injection H as ->. lia.
  - destruct (N.leb_spec (Z.to_N n) 255); [discriminate|lia].
Qed.

Lemma byte_of_val (b : byte) : byte_of (byte_val b) = b.
Proof.
  unfold byte_of, byte_val. rewrite N2Z.id, Byte.of_to_N. reflexivity.
Qed.

Lemma byte_val_inj (a b : byte) : byte_val a = byte_val b -> a = b.
Proof.
  intros H. rewrite <- (byte_of_val a), <- (byte_of_val b), H. reflexivity.
Qed.

Lemma be_value_snoc (b : bytes) (x : byte) :
  be_value (b ++ [x]) = be_value b * 256 + byte_val x.
Proof. unfold be_value. rewrite fold_left_app. reflexivity. Qed.

Lemma be_value_fold (b : bytes) (acc : Z) :
  fold_left (fun acc x => acc * 256 + byte_val x) b acc
  = acc * 256 ^ Z.of_nat (length b) + be_value b.
Proof.
  unfold be_value. revert acc.
  induction b as [|x b IH]; intros acc.
  - simpl. lia.
  - cbn [fold_left length]. rewrite IH, (IH (0 * 256 + byte_val x)).
    rewrite Nat2Z.inj_succ, Z.pow_succ_r by lia. lia.
Qed.

Lemma be_value_cons (x : byte) (b : bytes) :
  be_value (x :: b) = byte_val x * 256 ^ Z.of_nat (length b) + be_value b.
Proof. unfold be_value at 1. cbn [fold_left]. rewrite be_value_fold. lia. Qed.

Lemma be_value_range (b : bytes) : 0 <= be_value b < 256 ^ Z.of_nat (length b).
Proof.
  induction b as [|x b IH] using rev_ind.
  - cbn. lia.
  - rewrite be_value_snoc, length_app, Nat2Z.inj_add. cbn [length].
    rewrite Z.pow_add_r by lia. pose proof (byte_val_range x). simpl Z.of_nat. lia.
Qed.

(** * rlp_get_bytes *)

Lemma rlp_get_bytes_rec_0 (fuel : nat) : rlp_get_bytes_rec fuel 0 = [].
Proof. destruct fuel; reflexivity. Qed.

Lemma abs_quot_256 (x : Z) : Z.abs (Z.quot x 256) = Z.abs x / 256.
Proof.
  destruct (Z.le_gt_cases 0 x) as [H|H].
  - rewrite Z.quot_div_nonneg by lia. rewrite !Z.abs_eq; auto.
    apply Z.div_pos; lia.
  - replace x with (- (- x)) at 1 by lia.
    rewrite Z.quot_opp_l by lia. rewrite Z.abs_opp.
    rewrite Z.quot_div_nonneg by lia.
    rewrite Z.abs_eq by (apply Z.div_pos; lia).
    rewrite (Z.abs_neq x) by lia. reflexivity.
Qed.

Lemma quot_256_log2 (x : Z) :
  x <> 0 -> Z.quot x 256 = 0 \/ Z.log2 (Z.abs (Z.quot x 256)) < Z.log2 (Z.abs x).
Proof.
  intros Hx. rewrite abs_quot_256.
  destruct (Z.lt_ge_cases (Z.abs x) 256) as [H|H].
  - left. apply Z.abs_0_iff. rewrite abs_quot_256. apply Z.div_small. lia.
  - right. change 256 with (2 ^ 8). rewrite <- Z.shiftr_div_pow2 by lia.
    rewrite Z.log2_shiftr by lia.
    assert (8 <= Z.log2 (Z.abs x)) by (apply (Z.log2_le_mono 256); lia).
    lia.
Qed.

Lemma rlp_get_bytes_rec_enough (f1 f2 : nat) (x : Z) :
  Z.log2 (Z.abs x) < Z.of_nat f1 -> Z.log2 (Z.abs x) < Z.of_nat f2 ->
  rlp_get_bytes_rec f1 x = rlp_get_bytes_rec f2 x.
Proof.
  revert f2 x. induction f1 as [|f1 IH]; intros f2 x H1 H2.
  - pose proof (Z.log2_nonneg (Z.abs x)). lia.
  - destruct f2 as [|f2]; [pose proof (Z.log2_nonneg (Z.abs x)); lia|].
    cbn [rlp_get_bytes_rec]. destruct (Z.eqb_spec x 0) as [|Hx]; [reflexivity|].
    f_equal. destruct (quot_256_log2 x Hx) as [E|E].
    + rewrite E, !rlp_get_bytes_rec_0. reflexivity.
    + apply IH; lia.
Qed.

(** The equation of the source. *)
Lemma rlp_get_bytes_eq (x : Z) :
  rlp_get_bytes x =
  if x =? 0 then [] else rlp_get_bytes (Z.quot x 256) ++ [byte_of (x mod 256)].
Proof.
  unfold rlp_get_bytes at 1. cbn [rlp_get_bytes_rec].
  destruct (Z.eqb_spec x 0) as [|Hx]; [reflexivity|].
  f_equal. destruct (quot_256_log2 x Hx) as [E|E].
  - rewrite E. unfold rlp_get_bytes. rewrite !rlp_get_bytes_rec_0. reflexivity.
  - unfold rlp_get_bytes. apply rlp_get_bytes_rec_enough.
    + pose proof (Z.log2_nonneg (Z.abs x)). lia.
    + pose proof (Z.log2_nonneg (Z.abs (Z.quot x 256))). lia.
Qed.

Lemma rlp_get_bytes_pos (x : Z) :
  0 < x -> rlp_get_bytes x = rlp_get_bytes (x / 256) ++ [byte_of (x mod 256)].
Proof.
  intros Hx. rewrite rlp_get_bytes_eq.
  destruct (Z.eqb_spec x 0); [lia|]. rewrite Z.quot_div_nonneg by lia. reflexivity.
Qed.

(** [rlp_get_bytes x] is the shortest big-endian form of [x]. *)
Lemma rlp_get_bytes_minimal (x : Z) : 0 <= x -> be_minimal (rlp_get_bytes x) x.
Proof.
  pattern x. apply (well_founded_induction (Z.lt_wf 0)). clear x.
  intros x IH Hx. destruct (Z.eq_dec x 0) as [->|Hne].
  - split; [reflexivity|]. intros h t E. discriminate E.
  - rewrite rlp_get_bytes_pos by lia.
    assert (Hq : 0 <= x / 256 < x).
    { split; [apply Z.div_pos; lia|apply Z.div_lt; lia]. }
    destruct (IH _ Hq (proj1 Hq)) as [Hv Hm]. split.
    + rewrite be_value_snoc, Hv, byte_val_of by (apply Z.mod_pos_bound; lia).
      pose proof (Z.div_mod x 256). lia.
    + intros h t E. destruct (rlp_get_bytes (x / 256)) as [|h' t'] eqn:Eq.
      * cbn in E. injection E as <- _.
        rewrite byte_val_of by (apply Z.mod_pos_bound; lia).
        cbn in Hv. pose proof (Z.div_mod x 256). lia.
      * cbn in E. injection E as <- _. apply (Hm h' t'). reflexivity.
Qed.

Lemma rlp_get_bytes_length_pos (x : Z) : 0 < x -> (0 < length (rlp_get_bytes x))%nat.
Proof.
  intros Hx. rewrite rlp_get_bytes_pos by lia. rewrite length_app. cbn. lia.
Qed.

(** A shortest form has as many bytes as its value needs. *)
Lemma be_minimal_bounds (lb : bytes) (n : Z) :
  be_minimal lb n -> 0 < n ->
  256 ^ (Z.of_nat (length lb) - 1) <= n < 256 ^ Z.of_nat (length lb).
Proof.
  intros [Hv Hm] Hn. destruct lb as [|h t].
  - cbn in Hv. lia.
  - specialize (Hm h t eq_refl). subst n. rewrite be_value_cons.
    pose proof (be_value_range t). pose proof (byte_val_range h).
    cbn [length]. rewrite Nat2Z.inj_succ.
    replace (Z.succ (Z.of_nat (length t)) - 1) with (Z.of_nat (length t)) by lia.
    rewrite Z.pow_succ_r by lia.
    set (p := 256 ^ Z.of_nat (length t)) in *. nia.
Qed.

(** * rlp_encode_bytes *)

Lemma passthrough_iff (b : bytes) :
  passthrough b <-> (Z.of_nat (length b) =? 1) && first_below_0x80 b = true.
Proof.
  split.
  - intros (b0 & -> & H). cbn. apply Z.ltb_lt. exact H.
  - intros H. apply andb_true_iff in H as [H1 H2].
    destruct b as [|b0 [|b1 b]]; cbn in *; try discriminate.
    + exists b0. split; [reflexivity|]. apply Z.ltb_lt. exact H2.
    + apply Z.eqb_eq in H1. lia.
Qed.

Lemma rlp_encode_bytes_pass (b : bytes) : passthrough b -> rlp_encode_bytes b = b.
Proof.
  intros H. apply passthrough_iff in H. unfold rlp_encode_bytes. rewrite H. reflexivity.
Qed.

Lemma rlp_encode_bytes_short (b : bytes) :
  ~ passthrough b -> Z.of_nat (length b) <= 55 ->
  rlp_encode_bytes b = byte_of (Z.of_nat (length b) + 0x80) :: b.
Proof.
  intros Hp Hl. unfold rlp_encode_bytes.
  destruct ((Z.of_nat (length b) =? 1) && first_below_0x80 b) eqn:E.
  - exfalso. apply Hp, passthrough_iff, E.
  - destruct (Z.leb_spec (Z.of_nat (length b)) 55); [reflexivity|lia].
Qed.

Lemma rlp_encode_bytes_long (b : bytes) :
  55 < Z.of_nat (length b) ->
  rlp_encode_bytes b =
  byte_of (Z.of_nat (length (rlp_get_bytes (Z.of_nat (length b)))) + 0x80 + 55)
    :: rlp_get_bytes (Z.of_nat (length b)) ++ b.
Proof.
  intros Hl. unfold rlp_encode_bytes.
  destruct (Z.eqb_spec (Z.of_nat (length b)) 1); [lia|]. cbn [andb].
  destruct (Z.leb_spec (Z.of_nat (length b)) 55); [lia|reflexivity].
Qed.

Lemma long_not_passthrough (b : bytes) : 55 < Z.of_nat (length b) -> ~ passthrough b.
Proof. intros H (b0 & -> & _). cbn in H. lia. Qed.

(** The length field of a payload shorter than 2^53 bytes has 1 to 7
    bytes, so the long-form header stays a byte. *)
Lemma length_field_size (n : Z) :
  55 < n < 2 ^ 53 -> (1 <= length (rlp_get_bytes n) <= 7)%nat.
Proof.
  intros Hn. pose proof (rlp_get_bytes_length_pos n ltac:(lia)).
  pose proof (be_minimal_bounds _ _ (rlp_get_bytes_minimal n ltac:(lia)) ltac:(lia)) as [Hlo _].
  split; [lia|].
  destruct (le_gt_dec (length (rlp_get_bytes n)) 7) as [|Hgt]; [assumption|exfalso].
  assert (256 ^ 7 <= 256 ^ (Z.of_nat (length (rlp_get_bytes n)) - 1))
    by (apply Z.pow_le_mono_r; lia).
  assert (2 ^ 53 < 256 ^ 7) by (vm_compute; reflexivity). lia.
Qed.

Lemma rlp_encode_bytes_length (b : bytes) :
  ~ passthrough b ->
  Z.of_nat (length (rlp_encode_bytes b)) =
  1 + (if Z.of_nat (length b) <=? 55 then 0
       else Z.of_nat (length (rlp_get_bytes (Z.of_nat (length b)))))
    + Z.of_nat (length b).
Proof.
  intros Hp. destruct (Z.leb_spec (Z.of_nat (length b)) 55).
  - rewrite rlp_encode_bytes_short by assumption. cbn [length]. lia.
  - rewrite rlp_encode_bytes_long by assumption. cbn [length].
    rewrite length_app. lia.
Qed.

Lemma passthrough_dec (b : bytes) : {passthrough b} + {~ passthrough b}.
Proof.
  destruct ((Z.of_nat (length b) =? 1) && first_below_0x80 b) eqn:E.
  - left. apply passthrough_iff, E.
  - right. intros H. apply passthrough_iff in H. congruence.
Qed.

Lemma rlp_encode_bytes_nonempty (b : bytes) : rlp_encode_bytes b <> [].
Proof.
  destruct (passthrough_dec b) as [Hp|Hp].
  - rewrite rlp_encode_bytes_pass by assumption. destruct Hp as (b0 & -> & _). discriminate.
  - intros E. apply (f_equal (fun l => Z.of_nat (length l))) in E.
    rewrite rlp_encode_bytes_length in E by assumption. cbn in E.
    destruct (Z.of_nat (length b) <=? 55); lia.
Qed.

Lemma length_field_mono (n m : Z) :
  0 < n <= m -> (length (rlp_get_bytes n) <= length (rlp_get_bytes m))%nat.
Proof.
  intros H.
  pose proof (be_minimal_bounds _ _ (rlp_get_bytes_minimal n ltac:(lia)) ltac:(lia)) as [Hn _].
  pose proof (be_minimal_bounds _ _ (rlp_get_bytes_minimal m ltac:(lia)) ltac:(lia)) as [_ Hm].
  pose proof (rlp_get_bytes_length_pos n ltac:(lia)).
  assert (Hlt : 256 ^ (Z.of_nat (length (rlp_get_bytes n)) - 1)
                < 256 ^ Z.of_nat (length (rlp_get_bytes m))) by lia.
  apply Z.pow_lt_mono_r_iff in Hlt; lia.
Qed.

(** The framed length grows strictly with the payload length. *)
Lemma framed_length_mono (a b : bytes) :
  ~ passthrough a -> ~ passthrough b -> (length a < length b)%nat ->
  (length (rlp_encode_bytes a) < length (rlp_encode_bytes b))%nat.
Proof.
  intros Ha Hb Hlt.
  pose proof (rlp_encode_bytes_length a Ha) as Ea.
  pose proof (rlp_encode_bytes_length b Hb) as Eb.
  destruct (Z.leb_spec (Z.of_nat (length a)) 55);
    destruct (Z.leb_spec (Z.of_nat (length b)) 55); try lia.
  pose proof (length_field_mono (Z.of_nat (length a)) (Z.of_nat (length b)) ltac:(lia)).
  lia.
Qed.

Lemma rlp_encode_bytes_suffix (b : bytes) :
  ~ passthrough b -> exists pre, rlp_encode_bytes b = pre ++ b.
Proof.
  intros Hp. destruct (Z.leb_spec (Z.of_nat (length b)) 55).
  - rewrite rlp_encode_bytes_short by assumption. eexists [_]. reflexivity.
  - rewrite rlp_encode_bytes_long by assumption.
    eexists (_ :: _). reflexivity.
Qed.

(** The framing loses nothing: distinct payloads have distinct frames. *)
Lemma rlp_encode_bytes_inj (a b : bytes) :
  rlp_encode_bytes a = rlp_encode_bytes b -> a = b.
Proof.
  intros E.
  assert (Hmix : forall a b, passthrough a -> ~ passthrough b ->
                             rlp_encode_bytes a <> rlp_encode_bytes b).
  { clear. intros a b Ha Hb E.
    rewrite (rlp_encode_bytes_pass a Ha) in E.
    destruct Ha as (c & -> & Hc).
    pose proof (rlp_encode_bytes_length b Hb) as Hl. rewrite <- E in Hl.
    cbn [length] in Hl.
    assert (b = []) as ->.
    { destruct b as [|b1 b]; [reflexivity|]. cbn [length] in Hl.
      destruct (Z.of_nat (S (length b)) <=? 55); lia. }
    rewrite rlp_encode_bytes_short in E by (first [assumption | cbn; lia]).
    injection E as ->. cbn [length] in Hc.
    rewrite byte_val_of in Hc; lia. }
  destruct (passthrough_dec a) as [Ha|Ha], (passthrough_dec b) as [Hb|Hb].
  - rewrite !rlp_encode_bytes_pass in E by assumption. exact E.
  - exfalso. exact (Hmix a b Ha Hb E).
  - exfalso. exact (Hmix b a Hb Ha (eq_sym E)).
  - assert (Hlen : length a = length b).
    { destruct (lt_eq_lt_dec (length a) (length b)) as [[Hlt|He]|Hlt]; [|exact He|].
      - pose proof (framed_length_mono a b Ha Hb Hlt). rewrite E in *. lia.
      - pose proof (framed_length_mono b a Hb Ha Hlt). rewrite E in *. lia. }
    destruct (rlp_encode_bytes_suffix a Ha) as [pa Ea].
    destruct (rlp_encode_bytes_suffix b Hb) as [pb Eb].
    rewrite Ea, Eb in E. apply app_inj_2 in E; [tauto|exact Hlen].
Qed.

(** The header byte of a frame. *)
Lemma rlp_header (b : bytes) :
  framable b ->
  exists h t, rlp_encode_bytes b = h :: t /\
    ((passthrough b /\ byte_val h < 0x80) \/
     (~ passthrough b /\ Z.of_nat (length b) <= 55 /\ t = b /\
        byte_val h = 0x80 + Z.of_nat (length b)) \/
     (55 < Z.of_nat (length b) /\
        t = rlp_get_bytes (Z.of_nat (length b)) ++ b /\
        byte_val h = 0xB7 + Z.of_nat (length (rlp_get_bytes (Z.of_nat (length b)))) /\
        (1 <= length (rlp_get_bytes (Z.of_nat (length b))) <= 7)%nat)).
Proof.
  intros Hf. unfold framable in Hf.
  destruct (passthrough_dec b) as [Hp|Hp].
  - rewrite rlp_encode_bytes_pass by assumption.
    destruct Hp as (b0 & -> & H0). exists b0, []. split; [reflexivity|].
    left. split; [|assumption]. exists b0. auto.
  - destruct (Z.leb_spec (Z.of_nat (length b)) 55).
    + rewrite rlp_encode_bytes_short by assumption. do 2 eexists. split; [reflexivity|].
      right. left. repeat split; try assumption. rewrite byte_val_of; lia.
    + rewrite rlp_encode_bytes_long by assumption. do 2 eexists. split; [reflexivity|].
      right. right. pose proof (length_field_size (Z.of_nat (length b)) ltac:(lia)).
      repeat split; try lia. rewrite byte_val_of; lia.
Qed.

(** Frames are self-delimiting: of two byte strings that start with a
    frame each, and are equal, the framed payloads are equal. *)
Lemma rlp_encode_bytes_prefix_free (a b x y : bytes) :
  framable a -> framable b ->
  rlp_encode_bytes a ++ x = rlp_encode_bytes b ++ y -> a = b /\ x = y.
Proof.
  intros Fa Fb E.
  destruct (rlp_header a Fa) as (ha & ta & Ea & Ca).
  destruct (rlp_header b Fb) as (hb & tb & Eb & Cb).
  assert (Hab : a = b).
  { rewrite Ea, Eb in E. cbn in E. injection E as Hh Et. subst hb.
    destruct Ca as [[Pa Ha]|[(Na & La & -> & Ha)|(La & -> & Ha & Sa)]];
    destruct Cb as [[Pb Hb]|[(Nb & Lb & -> & Hb)|(Lb & -> & Hb & Sb)]]; try lia.
    - rewrite (rlp_encode_bytes_pass a Pa) in Ea.
      rewrite (rlp_encode_bytes_pass b Pb) in Eb.
      destruct Pa as (ca & -> & _), Pb as (cb & -> & _). congruence.
    - apply app_inj_1 in Et; [tauto|lia].
    - rewrite <- !app_assoc in Et. apply app_inj_1 in Et; [|lia].
      destruct Et as [El Et].
      assert (Z.of_nat (length a) = Z.of_nat (length b)).
      { pose proof (rlp_get_bytes_minimal (Z.of_nat (length a)) ltac:(lia)) as [Va _].
        pose proof (rlp_get_bytes_minimal (Z.of_nat (length b)) ltac:(lia)) as [Vb _].
        rewrite El in Va. lia. }
      apply app_inj_1 in Et; [tauto|lia]. }
  subst b. split; [reflexivity|]. apply app_inv_head in E. exact E.
Qed.

(** C2 (V2 framing): the three size classes of [rlp_encode_bytes] and the
    growth of its output.  A single byte below 0x80 is returned unchanged;
    any other payload of at most 55 bytes gets the one header byte
    [0x80 + len]; a longer payload (of fewer than 2^53 bytes, where the
    source's float division is exact) gets the header byte
    [0x80 + 55 + L] and the [L]-byte shortest big-endian form of its
    length; outside the passthrough case the frame is strictly longer
    than the payload. *)
Theorem rlp_encode_bytes_frames (b : bytes) :
  let blen := Z.of_nat (length b) in
  (passthrough b -> rlp_encode_bytes b = b) /\
  (~ passthrough b -> blen <= 55 ->
     exists h, rlp_encode_bytes b = h :: b /\ byte_val h = 0x80 + blen) /\
  (55 < blen < 2 ^ 53 ->
     exists h lb, rlp_encode_bytes b = h :: lb ++ b /\
       byte_val h = 0x80 + 55 + Z.of_nat (length lb) /\
       be_minimal lb blen) /\
  (~ passthrough b -> (length b < length (rlp_encode_bytes b))%nat).
Proof.
  intros blen. subst blen. repeat split.
  - apply rlp_encode_bytes_pass.
  - intros Hp Hl. eexists. split; [apply rlp_encode_bytes_short; assumption|].
    rewrite byte_val_of; lia.
  - intros Hl. do 2 eexists. split; [apply rlp_encode_bytes_long; lia|].
    pose proof (length_field_size _ Hl). split.
    + rewrite byte_val_of; lia.
    + apply rlp_get_bytes_minimal. lia.
  - intros Hp. pose proof (rlp_encode_bytes_length b Hp).
    destruct (Z.of_nat (length b) <=? 55); lia.
Qed.

(** * Integer codec *)

Lemma to_bytes_big_length (len : nat) (n : Z) : length (to_bytes_big len n) = len.
Proof.
  revert n. induction len as [|len IH]; intros n; [reflexivity|].
  cbn [to_bytes_big]. rewrite length_app, IH. cbn. lia.
Qed.

Lemma be_value_to_bytes_big (len : nat) (n : Z) :
  be_value (to_bytes_big len n) = n mod 256 ^ Z.of_nat len.
Proof.
  revert n. induction len as [|len IH]; intros n.
  - cbn. rewrite Z.mod_1_r. reflexivity.
  - cbn [to_bytes_big]. rewrite be_value_snoc, IH.
    rewrite byte_val_of by (apply Z.mod_pos_bound; lia).
    rewrite Nat2Z.inj_succ, Z.pow_succ_r by lia.
    rewrite (Z.rem_mul_r n 256 (256 ^ Z.of_nat len))
      by (try apply Z.pow_pos_nonneg; lia).
    lia.
Qed.

Lemma bit_length_spec (m : Z) : Z.abs m < 2 ^ bit_length m /\ 0 <= bit_length m.
Proof.
  unfold bit_length. destruct (Z.eqb_spec m 0) as [->|Hm].
  - cbn. lia.
  - pose proof (Z.log2_spec (Z.abs m) ltac:(lia)) as [_ H].
    pose proof (Z.log2_nonneg (Z.abs m)).
    replace (Z.log2 (Z.abs m) + 1) with (Z.succ (Z.log2 (Z.abs m))) by lia. lia.
Qed.

(** The length [int_to_bytes] picks holds [n] in two's complement. *)
Lemma byte_length_of_int_fits (n : Z) :
  let len := byte_length_of_int n in
  1 <= len /\ - 2 ^ (8 * len - 1) <= n < 2 ^ (8 * len - 1).
Proof.
  intros len. subst len. unfold byte_length_of_int.
  set (m := if n <? 0 then n + 1 else n).
  pose proof (bit_length_spec m) as [Hm Hb].
  set (len := (bit_length m + 8) / 8).
  assert (Hlen : bit_length m <= 8 * len - 1 /\ 1 <= len).
  { subst len. pose proof (Z.div_mod (bit_length m + 8) 8 ltac:(lia)).
    pose proof (Z.mod_pos_bound (bit_length m + 8) 8 ltac:(lia)). lia. }
  destruct Hlen as [Hle H1]. split; [exact H1|].
  assert (Hp : 2 ^ bit_length m <= 2 ^ (8 * len - 1)) by (apply Z.pow_le_mono_r; lia).
  subst m. destruct (Z.ltb_spec n 0); lia.
Qed.

Lemma pow256_two (k : Z) : 0 <= k -> 256 ^ k = 2 ^ (8 * k).
Proof. intros Hk. change 256 with (2 ^ 8). rewrite <- Z.pow_mul_r by lia. reflexivity. Qed.

(** Round trip of the integer codec. *)
Lemma bytes_to_int_to_bytes (n : Z) : bytes_to_int (int_to_bytes n) = n.
Proof.
  unfold bytes_to_int, int_to_bytes.
  pose proof (byte_length_of_int_fits n) as [H1 Hn]. cbv zeta in *.
  set (len := byte_length_of_int n) in *.
  rewrite to_bytes_big_length, be_value_to_bytes_big, Z2Nat.id by lia.
  rewrite pow256_two by lia.
  replace (8 * len) with (Z.succ (8 * len - 1)) by lia.
  rewrite Z.pow_succ_r by lia. set (h := 2 ^ (8 * len - 1)) in *.
  assert (0 < h) by (apply Z.pow_pos_nonneg; lia).
  destruct (Z.lt_ge_cases n 0) as [Hneg|Hpos].
  - replace (n mod (2 * h)) with (n + 2 * h).
    + destruct (Z.leb_spec (2 * h) (2 * (n + 2 * h))); lia.
    + apply (Z.mod_unique _ _ (-1)); lia.
  - rewrite Z.mod_small by lia.
    destruct (Z.leb_spec (2 * h) (2 * n)); lia.
Qed.

Lemma int_to_bytes_inj (n m : Z) : int_to_bytes n = int_to_bytes m -> n = m.
Proof.
  intros E. rewrite <- (bytes_to_int_to_bytes n), <- (bytes_to_int_to_bytes m), E.
  reflexivity.
Qed.

Lemma int_to_bytes_length (n : Z) :
  Z.of_nat (length (int_to_bytes n)) = byte_length_of_int n.
Proof.
  unfold int_to_bytes. rewrite to_bytes_big_length.
  pose proof (byte_length_of_int_fits n) as [H _]. cbv zeta in H. lia.
Qed.

Lemma int_to_bytes_nonempty (n : Z) : int_to_bytes n <> [].
Proof.
  intros E. pose proof (int_to_bytes_length n) as H. rewrite E in H.
  pose proof (byte_length_of_int_fits n) as [H1 _]. cbv zeta in H1. cbn in H. lia.
Qed.

(** The expectations of tests/legacy_unittest/test_utils.py
    ([test_byte_length_of_int], [test_int_to_bytes]), for every shift. *)
Lemma test_byte_length_of_int (i : Z) :
  0 <= i ->
  byte_length_of_int (- (0x80 * 256 ^ i)) = 1 + i /\
  byte_length_of_int (0x80 * 256 ^ i) = 2 + i.
Proof.
  intros Hi. rewrite pow256_two by lia.
  assert (E : 0x80 * 2 ^ (8 * i) = 2 ^ (8 * i + 7)).
  { rewrite Z.pow_add_r by lia. change (2 ^ 7) with 128. lia. }
  rewrite E. assert (Hp : 0 < 2 ^ (8 * i + 7)) by (apply Z.pow_pos_nonneg; lia).
  unfold byte_length_of_int. split.
  - destruct (Z.ltb_spec (- 2 ^ (8 * i + 7)) 0); [|lia].
    unfold bit_length. destruct (Z.eqb_spec (- 2 ^ (8 * i + 7) + 1) 0) as [E0|E0].
    + assert (8 * i + 7 = 0) by (apply (Z.pow_inj_r 2); [lia|lia|lia|cbn; lia]). lia.
    + replace (Z.abs (- 2 ^ (8 * i + 7) + 1)) with (Z.pred (2 ^ (8 * i + 7)))
        by (generalize dependent (2 ^ (8 * i + 7)); intros; lia).
      rewrite Z.log2_pred_pow2 by lia.
      replace (Z.pred (8 * i + 7) + 1 + 8) with (7 + (1 + i) * 8) by lia.
      rewrite Z.div_add by lia. reflexivity.
  - destruct (Z.ltb_spec (2 ^ (8 * i + 7)) 0); [lia|].
    unfold bit_length. destruct (Z.eqb_spec (2 ^ (8 * i + 7)) 0); [lia|].
    rewrite Z.abs_eq by lia. rewrite Z.log2_pow2 by lia.
    replace (8 * i + 7 + 1 + 8) with (0 + (2 + i) * 8) by lia.
    rewrite Z.div_add by lia. reflexivity.
Qed.

(** "Minimal": no shorter length of at least one byte holds [n]. *)
Lemma byte_length_of_int_minimal (n len : Z) :
  1 <= len -> - 2 ^ (8 * len - 1) <= n < 2 ^ (8 * len - 1) ->
  byte_length_of_int n <= len.
Proof.
  intros Hlen Hn. unfold byte_length_of_int.
  set (m := if n <? 0 then n + 1 else n).
  assert (Hm : Z.abs m < 2 ^ (8 * len - 1)) by (subst m; destruct (Z.ltb_spec n 0); lia).
  assert (Hb : bit_length m <= 8 * len - 1).
  { unfold bit_length. destruct (Z.eqb_spec m 0); [lia|].
    apply Z.log2_lt_pow2 in Hm; lia. }
  assert ((bit_length m + 8) / 8 < len + 1) by (apply Z.div_lt_upper_bound; lia).
  lia.
Qed.

Example test_int_to_bytes :
  int_to_bytes (- 0x80) = [x80] /\ int_to_bytes 0x80 = [x00; x80] /\
  int_to_bytes (- 0x8000) = [x80; x00] /\ int_to_bytes 0x8000 = [x00; x80; x00] /\
  int_to_bytes 0 = [x00] /\ int_to_bytes (- 1) = [xff].
Proof. repeat split; vm_compute; reflexivity. Qed.

(** * UTF-8 *)

Lemma cont_bits_of (r : Z) : 0 <= r < 64 -> cont_bits (byte_of (0x80 + r)) = Some r.
Proof.
  intros Hr. unfold cont_bits. rewrite byte_val_of by lia.
  destruct (Z.leb_spec 0x80 (0x80 + r)); [|lia].
  destruct (Z.ltb_spec (0x80 + r) 0xC0); [|lia].
  cbn. f_equal. lia.
Qed.

Lemma is_scalar_spec (c : Z) :
  is_scalar c = true <-> 0 <= c < 0x110000 /\ ~ (0xD800 <= c < 0xE000).
Proof.
  unfold is_scalar, is_surrogate.
  destruct (Z.leb_spec 0 c), (Z.ltb_spec c 0x110000), (Z.leb_spec 0xD800 c),
    (Z.ltb_spec c 0xE000); cbn; split; intros; try discriminate; try lia; auto.
Qed.

(** Decoding the UTF-8 form of a code point, followed by anything, gives
    the code point back and goes on with the rest. *)
Lemma bytes_decode_encode_cp (c : Z) (b rest : bytes) :
  utf8_encode_cp c = Ok b ->
  bytes_decode (b ++ rest) =
  match bytes_decode rest with
  | Ok s => Ok (c :: s)
  | Raise e => Raise e
  end.
Proof.
  unfold utf8_encode_cp. destruct (is_scalar c) eqn:Hs; [|discriminate].
  apply is_scalar_spec in Hs. destruct Hs as [Hr Hns]. cbn [negb].
  pose proof (Z.div_mod c 64 ltac:(lia)) as D0.
  pose proof (Z.mod_pos_bound c 64 ltac:(lia)) as R0.
  pose proof (Z.div_mod (c / 64) 64 ltac:(lia)) as D1.
  pose proof (Z.mod_pos_bound (c / 64) 64 ltac:(lia)) as R1.
  pose proof (Z.div_mod (c / 64 / 64) 64 ltac:(lia)) as D2.
  pose proof (Z.mod_pos_bound (c / 64 / 64) 64 ltac:(lia)) as R2.
  replace (c / 4096) with (c / 64 / 64) by (rewrite Z.div_div by lia; reflexivity).
  replace (c / 262144) with (c / 64 / 64 / 64) by (rewrite !Z.div_div by lia; reflexivity).
  set (r0 := c mod 64) in *. set (q0 := c / 64) in *.
  set (r1 := q0 mod 64) in *. set (q1 := q0 / 64) in *.
  set (r2 := q1 mod 64) in *. set (q2 := q1 / 64) in *.
  destruct (Z.ltb_spec c 0x80).
  { intros [= <-]. cbn [app bytes_decode]. rewrite byte_val_of by lia.
    destruct (Z.ltb_spec c 0x80); [reflexivity|lia]. }
  destruct (Z.ltb_spec c 0x800).
  { intros [= <-]. cbn [app bytes_decode].
    rewrite cont_bits_of by lia. rewrite byte_val_of by lia.
    cbv zeta. split_ltb.
    replace ((192 + q0 - 192) * 64 + r0) with c by lia. reflexivity. }
  destruct (Z.ltb_spec c 0x10000).
  { intros [= <-]. cbn [app bytes_decode].
    rewrite !cont_bits_of by lia. rewrite byte_val_of by lia.
    cbv zeta. replace ((224 + q1 - 224) * 4096 + r1 * 64 + r0) with c by lia.
    unfold is_surrogate. split_ltb; cbn [andb negb]; try reflexivity; lia. }
  intros [= <-]. cbn [app bytes_decode].
  rewrite !cont_bits_of by lia. rewrite byte_val_of by lia.
  cbv zeta. replace ((240 + q2 - 240) * 262144 + r2 * 4096 + r1 * 64 + r0) with c by lia.
  split_ltb; cbn [andb]; try reflexivity; lia.
Qed.

(** Round trip of the string codec. *)
Lemma bytes_decode_str_encode (s : list Z) (b : bytes) :
  str_encode s = Ok b -> bytes_decode b = Ok s.
Proof.
  revert b. induction s as [|c s IH]; intros b.
  - intros [= <-]. reflexivity.
  - cbn [str_encode]. destruct (utf8_encode_cp c) as [bc|] eqn:Ec; [|discriminate].
    destruct (str_encode s) as [bs|]; [|discriminate].
    intros [= <-]. rewrite (bytes_decode_encode_cp c bc bs Ec), (IH bs eq_refl).
    reflexivity.
Qed.

(** A string of Unicode scalar values has a UTF-8 form. *)
Lemma str_encode_scalars (s : list Z) :
  Forall (fun c => is_scalar c = true) s -> exists b, str_encode s = Ok b.
Proof.
  induction 1 as [|c s Hc _ [b IH]]; [exists []; reflexivity|].
  cbn [str_encode]. rewrite IH. unfold utf8_encode_cp. rewrite Hc. cbn [negb].
  destruct (c <? 128), (c <? 2048), (c <? 65536); eexists; reflexivity.
Qed.

(** * Key/value codec *)

Lemma encode_value_decode (v : pyobj) (b : bytes) :
  encode_value v = Ok b -> decode_object (Some b) (type_of v) = Ok v.
Proof.
  destruct v as [|n|x|s|a|y|c]; cbn; try discriminate.
  - intros [= <-]. rewrite bytes_to_int_to_bytes. reflexivity.
  - intros [= <-]. rewrite bytes_to_int_to_bytes. destruct x; reflexivity.
  - intros E. rewrite (bytes_decode_str_encode s b E). reflexivity.
  - intros [= <-]. destruct a. reflexivity.
  - intros [= <-]. reflexivity.
Qed.

Lemma encode_value_supported (v : pyobj) :
  supported_type (type_of v) = true -> str_valid v ->
  exists b, encode_value v = Ok b.
Proof.
  destruct v as [|n|x|s|a|y|c]; cbn; try discriminate; intros _ Hs;
    try (eexists; reflexivity).
  apply str_encode_scalars, Hs.
Qed.

(** C3, amended (round trip): for each of the five value types and every
    value of that type (a [str] being a string of Unicode scalar values),
    [encode_value] succeeds and [decode_object] under the same type gives
    the value back. *)
Theorem decode_encode_roundtrip (t : pytype) (v : pyobj) :
  supported_type t = true -> type_of v = t -> str_valid v ->
  exists b, encode_value v = Ok b /\ decode_object (Some b) t = Ok v.
Proof.
  intros Ht <- Hs. destruct (encode_value_supported v Ht Hs) as [b Hb].
  exists b. split; [exact Hb|]. apply encode_value_decode, Hb.
Qed.

(** C3 as stated fails: a Python [str] can hold a lone surrogate code
    point, which has no UTF-8 form.  ['\ud800'] is a value of type [str];
    [encode_value] raises UnicodeEncodeError on it, so there is no
    encoding to decode. *)
Theorem encode_value_lone_surrogate :
  let v := PyStr [0xD800] in
  supported_type TStr = true /\ type_of v = TStr /\
  encode_value v = Raise UnicodeEncodeError /\
  ~ exists b, encode_value v = Ok b /\ decode_object (Some b) TStr = Ok v.
Proof.
  intros v. split; [reflexivity|]. split; [reflexivity|].
  split; [reflexivity|]. intros (b & Hb & _). discriminate Hb.
Qed.

Lemma unsupported_is_other (t : pytype) :
  supported_type t = false -> exists name, t = TOther name.
Proof. destruct t; try discriminate. eauto. Qed.

(** C10: under a requested type outside the five supported ones,
    [decode_object] returns [None] for an absent and for any present byte
    string, and so does [get_default_value]; neither raises. *)
Theorem decode_object_unsupported_type (value_type : pytype)
    (value : option bytes) :
  supported_type value_type = false ->
  decode_object value value_type = Ok PyNone /\
  get_default_value value_type = PyNone.
Proof.
  intros H. destruct (unsupported_is_other value_type H) as [name ->].
  destruct value; split; reflexivity.
Qed.

Lemma decode_object_int (value : option bytes) :
  exists n, decode_object value TInt = Ok (PyInt n).
Proof. destruct value; eexists; reflexivity. Qed.

(** ** Keys *)

Lemma encode_key_int_like (index : pyobj) :
  isinstance_int index = true -> encode_key index = Ok (int_to_bytes (int_of index)).
Proof. destruct index; try discriminate; reflexivity. Qed.

Lemma key_candidates_int_like (index : pyobj) :
  isinstance_int index = true ->
  key_candidates index = Ok (elem_candidates (int_of index)).
Proof.
  intros H. unfold key_candidates, get_encoded_key_v1, get_encoded_key_v2.
  rewrite (encode_key_int_like index H). reflexivity.
Qed.

Lemma key_candidates_int (i : Z) : key_candidates (PyInt i) = Ok (elem_candidates i).
Proof. apply (key_candidates_int_like (PyInt i)). reflexivity. Qed.

Lemma key_candidates_ok (key : pyobj) (b : bytes) :
  encode_key key = Ok b ->
  key_candidates key = Ok (mkCandidates [b] [rlp_encode_bytes b]).
Proof.
  intros H. unfold key_candidates, get_encoded_key_v1, get_encoded_key_v2.
  rewrite H. reflexivity.
Qed.

Lemma encode_key_logical (key : pyobj) :
  logical_key key -> exists b, encode_key key = Ok b.
Proof.
  destruct key as [|n|x|s|a|y|c]; cbn; try contradiction; intros H;
    try (eexists; reflexivity).
  apply str_encode_scalars, H.
Qed.

Lemma SIZE_BYTE_KEY_eq : SIZE_BYTE_KEY = Ok size_candidates.
Proof. reflexivity. Qed.

Lemma bytes_to_int_size : bytes_to_int size_bytes = size_collision_index.
Proof. reflexivity. Qed.

Lemma int_to_bytes_size : int_to_bytes size_collision_index = size_bytes.
Proof. vm_compute. reflexivity. Qed.

(** Under V2 the reserved key is empty and no key is framed to nothing. *)
Lemma size_key_v2_fresh (key : pyobj) (k : bytes) :
  get_encoded_key_v2 key = Ok k -> cand_v2 size_candidates <> [k].
Proof.
  unfold get_encoded_key_v2. destruct (encode_key key) as [b|]; [|discriminate].
  intros [= <-] [= E]. symmetry in E. exact (rlp_encode_bytes_nonempty b E).
Qed.

(** Under V1 the reserved key is the key of exactly one index. *)
Lemma size_key_v1_collision (i : Z) :
  cand_v1 size_candidates = cand_v1 (elem_candidates i) <-> i = size_collision_index.
Proof.
  cbn. split.
  - intros [= E]. rewrite <- (bytes_to_int_to_bytes i), <- E. reflexivity.
  - intros ->. rewrite int_to_bytes_size. reflexivity.
Qed.

(** C4, at index 1936292453: the version-1 key of that index is the
    reserved size key of [ArrayDB], in every database handle; its
    version-2 key is not. *)
Theorem size_key_collides_with_index_v1 :
  exists k sk,
    key_candidates (PyInt 1936292453) = Ok k /\ SIZE_BYTE_KEY = Ok sk /\
    cand_v1 k = cand_v1 sk /\ cand_v2 k <> cand_v2 sk /\
    forall db, full_key V1 db k = full_key V1 db sk.
Proof.
  do 2 eexists. split; [apply key_candidates_int|].
  split; [apply SIZE_BYTE_KEY_eq|].
  assert (E : cand_v1 (elem_candidates 1936292453) = cand_v1 size_candidates).
  { symmetry. apply size_key_v1_collision. reflexivity. }
  split; [exact E|]. split.
  - intros H. symmetry in H. revert H.
    apply (size_key_v2_fresh (PyInt 1936292453)). reflexivity.
  - intros db. unfold full_key. rewrite E. reflexivity.
Qed.

(** * The three containers *)


(** C8 (scalar zero value): a [VarDB] reads the zero value of its type
    whenever nothing is stored under its key: in a store that holds
    nothing there, and after any [set] followed by [remove].  The zero
    values are 0, the empty string, [False], and [None] for [Address] and
    [bytes]. *)
Theorem VarDB_zero_value (var_key : pyobj) (db : Database)
    (value_type : pytype) (self : VarDB) (st : Store) :
  VarDB_init var_key db value_type = Ok self ->
  (db_get st (v_db self) (v_var_byte_key self) = None ->
   VarDB_get self st = Ok (get_default_value value_type)) /\
  (forall value st1,
     VarDB_set self value st = Ok st1 ->
     VarDB_get self (VarDB_remove self st1) = Ok (get_default_value value_type)) /\
  (get_default_value TInt = PyInt 0 /\ get_default_value TStr = PyStr [] /\
   get_default_value TBool = PyBool false /\
   get_default_value TAddress = PyNone /\ get_default_value TBytes = PyNone).
Proof.
  intros Hinit. unfold VarDB_init in Hinit.
  destruct (key_candidates var_key) as [key|]; [|discriminate].
  cbn in Hinit. injection Hinit as <-. cbn [v_db v_var_byte_key v_value_type].
  split; [|split].
  - intros H. unfold VarDB_get. cbn [v_db v_var_byte_key v_value_type].
    rewrite H. reflexivity.
  - intros value st1 Hset. unfold VarDB_get, VarDB_remove, db_get, db_delete.
    cbn [v_db v_var_byte_key v_value_type data].
    change (location (mkStore _ _ _) ?d ?k) with (location st1 d k).
    rewrite lookup_delete_eq. reflexivity.
  - repeat split.
Qed.

Lemma DictDB_init_fields (var_key : pyobj) (db : Database) (value_type : pytype)
    (depth : Z) (self : DictDB) :
  DictDB_init var_key db value_type depth = Ok self ->
  is_root (d_db self) = false /\ d_value_type self = value_type /\
  d_depth self = depth.
Proof.
  unfold DictDB_init.
  destruct (if is_root db then _ else _) as [p|]; [|discriminate].
  intros [= <-]. repeat split.
Qed.

(** C7, amended (map depth): on a [DictDB] of depth [d], [__setitem__],
    [remove] and [__delitem__] raise InvalidContainerAccess ("DictDB depth
    mismatch") when [d <> 1], for every key and value, so they succeed
    only when [d = 1]; there they write, respectively delete, the entry of
    the key.  For a key the codec accepts (every key of the four kinds
    does), [__getitem__] returns when [d <> 1] (so when [d > 1]) a
    [DictDB] of depth [d - 1] on the sub-database of the key: the prefixes
    of [self] followed by the encoded key under version 1 and by its frame
    under version 2, whatever the store holds; it decodes the stored value
    only when [d = 1].  For a key the codec rejects, [__getitem__] raises
    what [encode_key] raises, at every depth. *)
Theorem DictDB_depth_enforcement (var_key : pyobj) (db : Database)
    (value_type : pytype) (d : Z) (self : DictDB) (key value : pyobj)
    (st : Store) :
  DictDB_init var_key db value_type d = Ok self ->
  (d <> 1 ->
     DictDB_setitem self key value st = Raise depth_mismatch /\
     DictDB_remove self key st = Raise depth_mismatch /\
     DictDB_delitem self key st = Raise depth_mismatch) /\
  (logical_key key -> exists kb, encode_key key = Ok kb) /\
  (forall kb, encode_key key = Ok kb ->
     let kc := mkCandidates [kb] [rlp_encode_bytes kb] in
     (d <> 1 ->
        forall st', DictDB_getitem self key st' =
          Ok (ItemDict (mkDictDB
                (mkDatabase false (prefix_v1 (d_db self) ++ kb)
                   (prefix_v2 (d_db self) ++ rlp_encode_bytes kb))
                value_type (d - 1)))) /\
     (d = 1 ->
        (forall b, encode_value value = Ok b ->
           DictDB_setitem self key value st = Ok (db_put st (d_db self) kc b)) /\
        (forall e, encode_value value = Raise e ->
           DictDB_setitem self key value st = Raise e) /\
        DictDB_remove self key st = Ok (db_delete st (d_db self) kc) /\
        DictDB_delitem self key st = Ok (db_delete st (d_db self) kc) /\
        DictDB_getitem self key st =
          (v ← decode_object (db_get st (d_db self) kc) value_type;
           Ok (ItemValue v)))) /\
  (forall e, encode_key key = Raise e ->
     (forall st', DictDB_getitem self key st' = Raise e) /\
     (d = 1 ->
        DictDB_setitem self key value st = Raise e /\
        DictDB_remove self key st = Raise e /\
        DictDB_delitem self key st = Raise e)).
Proof.
  intros Hinit. destruct (DictDB_init_fields _ _ _ _ _ Hinit) as (Hroot & Hvt & Hd).
  unfold DictDB_delitem, DictDB_remove, DictDB_remove_, DictDB_setitem, DictDB_getitem,
    DictDB_init.
  rewrite Hroot, Hvt, Hd. split; [|split; [|split]].
  - intros Hdepth. destruct (Z.eqb_spec d 1); [contradiction|]. repeat split.
  - apply encode_key_logical.
  - intros kb Hkb. rewrite (key_candidates_ok key kb Hkb). split; intros Hdepth.
    + destruct (Z.eqb_spec d 1); [contradiction|]. intros st'.
      unfold get_sub_db. cbn [mbind result_bind cand_v1 cand_v2 concat].
      rewrite !app_nil_r. reflexivity.
    + rewrite Hdepth. cbn. repeat split.
      * intros b ->. reflexivity.
      * intros e ->. reflexivity.
  - intros e He.
    assert (Hkc : key_candidates key = Raise e).
    { unfold key_candidates, get_encoded_key_v1. rewrite He. reflexivity. }
    rewrite Hkc. split.
    + intros st'. destruct (d =? 1); reflexivity.
    + intros ->. repeat split.
Qed.

(** C7 as stated fails: [get(key)] on a map of depth greater than 1 does
    not always return a map.  The key is encoded before the map is built,
    and a key that [encode_key] rejects makes [__getitem__] raise: on a
    map of depth 2, [self[None]] raises InvalidParamsException ("key is
    None"), [self[1.5]] raises "Unsupported key type", and a [str] with a
    lone surrogate raises UnicodeEncodeError. *)
Theorem DictDB_getitem_rejects_key :
  let st := mkStore V2 ∅ ∅ in
  exists outer,
    DictDB_init (PyStr (pystr "m")) root_db TInt 2 = Ok outer /\
    d_depth outer = 2 /\
    DictDB_getitem outer PyNone st =
      Raise (InvalidParamsException "key is None") /\
    DictDB_getitem outer (PyOther "float") st =
      Raise (InvalidParamsException "Unsupported key type: <class 'float'>") /\
    DictDB_getitem outer (PyStr [0xD800]) st = Raise UnicodeEncodeError.
Proof.
  intros st. eexists. split; [reflexivity|].
  split; [reflexivity|]. split; [reflexivity|]. split; reflexivity.
Qed.

(** * The store *)

Lemma full_key_eq (s : Scheme) (db : Database) (key : candidates) :
  full_key s db key =
  db_prefix s db ++ concat (match s with V1 => cand_v1 key | V2 => cand_v2 key end).
Proof. destruct s; reflexivity. Qed.

(** A write or a deletion leaves every region resolved as it was. *)
Lemma location_put (st : Store) (db db' : Database) (key key' : candidates)
    (v : bytes) :
  location (db_put st db key v) db' key' = location st db' key'.
Proof. reflexivity. Qed.

Lemma location_delete (st : Store) (db db' : Database) (key key' : candidates) :
  location (db_delete st db key) db' key' = location st db' key'.
Proof. reflexivity. Qed.

Lemma location_eq (st : Store) (db : Database) (key : candidates) :
  location st db key =
  region st db ++
  concat (match resolve st db with V1 => cand_v1 key | V2 => cand_v2 key end).
Proof. unfold location, region. apply full_key_eq. Qed.

Lemma db_get_put_eq (st : Store) (db : Database) (key : candidates) (v : bytes) :
  db_get (db_put st db key v) db key = Some v.
Proof. unfold db_get. rewrite location_put. apply lookup_insert_eq. Qed.

Lemma db_get_put_ne (st : Store) (db db' : Database) (key key' : candidates)
    (v : bytes) :
  location st db key <> location st db' key' ->
  db_get (db_put st db key v) db' key' = db_get st db' key'.
Proof.
  intros H. unfold db_get. rewrite location_put. apply lookup_insert_ne, H.
Qed.

Lemma db_get_delete_eq (st : Store) (db : Database) (key : candidates) :
  db_get (db_delete st db key) db key = None.
Proof. unfold db_get. rewrite location_delete. apply lookup_delete_eq. Qed.


(** Distinct indices have distinct keys, under either scheme. *)
Lemma elem_key_inj (s : Scheme) (db : Database) (i j : Z) :
  full_key s db (elem_candidates i) = full_key s db (elem_candidates j) -> i = j.
Proof.
  destruct s; cbn; rewrite !app_nil_r; intros E; apply app_inv_head in E.
  - apply int_to_bytes_inj, E.
  - apply int_to_bytes_inj, rlp_encode_bytes_inj, E.
Qed.

(** The reserved key is the key of no index under V2, and of no index
    but [size_collision_index] under V1. *)
Lemma size_key_ne_elem (s : Scheme) (db : Database) (i : Z) :
  s = V2 \/ i <> size_collision_index ->
  full_key s db size_candidates <> full_key s db (elem_candidates i).
Proof.
  intros H E. destruct s; cbn in E; rewrite ?app_nil_r in E.
  - apply app_inv_head in E. destruct H as [H|H]; [discriminate|].
    apply H. apply size_key_v1_collision. cbn. f_equal. exact E.
  - rewrite <- (app_nil_r (prefix_v2 db)) in E at 1. apply app_inv_head in E.
    symmetry in E. exact (rlp_encode_bytes_nonempty _ E).
Qed.

(** * ArrayDB: the methods as equations *)

Lemma ArrayDB_get_size_from_db_eq (db : Database) (st : Store) :
  ArrayDB_get_size_from_db db st =
  Ok (match db_get st db size_candidates with
      | Some b => bytes_to_int b
      | None => 0
      end).
Proof.
  unfold ArrayDB_get_size_from_db. rewrite SIZE_BYTE_KEY_eq. cbn.
  destruct (db_get st db size_candidates); reflexivity.
Qed.

Lemma ArrayDB_set_size_eq (self : ArrayDB) (size : Z) (st : Store) :
  ArrayDB_set_size self size st =
  Ok (mkArrayDB (a_db self) (a_value_type self) size,
      db_put st (a_db self) size_candidates (int_to_bytes size)).
Proof. reflexivity. Qed.

Lemma ArrayDB_put_eq (self : ArrayDB) (value : pyobj) (st : Store) :
  ArrayDB_put self value st =
  match encode_value value with
  | Ok b =>
      Ok (mkArrayDB (a_db self) (a_value_type self) (a_size self + 1),
          db_put (db_put st (a_db self) (elem_candidates (a_size self)) b)
            (a_db self) size_candidates (int_to_bytes (a_size self + 1)))
  | Raise e => Raise e
  end.
Proof.
  unfold ArrayDB_put, ArrayDB_put_at. rewrite key_candidates_int. cbn.
  destruct (encode_value value); reflexivity.
Qed.


Lemma ArrayDB_pop_eq (self : ArrayDB) (st : Store) :
  ArrayDB_pop self st =
  if a_size self =? 0 then Ok (PyNone, self, st)
  else
    match ArrayDB_getitem self (PyInt (a_size self - 1)) st with
    | Ok last_val =>
        Ok (last_val,
            mkArrayDB (a_db self) (a_value_type self) (a_size self - 1),
            db_put (db_delete st (a_db self) (elem_candidates (a_size self - 1)))
              (a_db self) size_candidates (int_to_bytes (a_size self - 1)))
    | Raise e => Raise e
    end.
Proof.
  unfold ArrayDB_pop. destruct (a_size self =? 0); [reflexivity|].
  destruct (ArrayDB_getitem self (PyInt (a_size self - 1)) st); reflexivity.
Qed.

Lemma ArrayDB_setitem_eq (self : ArrayDB) (index value : pyobj) (st : Store) :
  ArrayDB_setitem self index value st =
  if negb (isinstance_int index) then
    Raise (InvalidParamsException "Invalid index type: not an integer")
  else if in_range (a_size self) (normalize_index (a_size self) index) then
    match encode_value value with
    | Ok b =>
        Ok (db_put st (a_db self)
              (elem_candidates (int_of (normalize_index (a_size self) index))) b)
    | Raise e => Raise e
    end
  else Raise (InvalidParamsException "ArrayDB out of index").
Proof.
  unfold ArrayDB_setitem, ArrayDB_put_at.
  destruct (isinstance_int index) eqn:Hi; [|reflexivity]. cbn [negb].
  destruct (in_range _ _); [|reflexivity].
  rewrite key_candidates_int_like.
  - cbn. destruct (encode_value value); reflexivity.
  - unfold normalize_index. destruct (int_of index <? 0); auto.
Qed.

(** [put] raises only out of [encode_value], before its first write, and
    [pop] only out of its read. *)
Lemma ArrayDB_put_raises (self : ArrayDB) (value : pyobj) (st : Store) (e : exn) :
  ArrayDB_put self value st = Raise e -> encode_value value = Raise e.
Proof. rewrite ArrayDB_put_eq. destruct (encode_value value); congruence. Qed.

Lemma ArrayDB_pop_raises (self : ArrayDB) (st : Store) (e : exn) :
  ArrayDB_pop self st = Raise e ->
  ArrayDB_getitem self (PyInt (a_size self - 1)) st = Raise e.
Proof.
  rewrite ArrayDB_pop_eq. destruct (a_size self =? 0); [discriminate|].
  destruct (ArrayDB_getitem _ _ _); congruence.
Qed.

(** A [pop] on a container of length 0 returns [None] and writes nothing. *)
Lemma ArrayDB_pop_empty (self : ArrayDB) (st : Store) :
  a_size self = 0 -> ArrayDB_pop self st = Ok (PyNone, self, st).
Proof. intros H. rewrite ArrayDB_pop_eq, H. reflexivity. Qed.

(** * The cached size and the persisted size *)

Lemma ArrayDB_init_eq (var_key : pyobj) (db : Database) (value_type : pytype)
    (st : Store) :
  ArrayDB_init var_key db value_type st =
  match create_db_prefix ArrayDB_cls var_key with
  | Ok prefix =>
      Ok (mkArrayDB (get_sub_db db prefix) value_type
            (match db_get st (get_sub_db db prefix) size_candidates with
             | Some b => bytes_to_int b
             | None => 0
             end))
  | Raise e => Raise e
  end.
Proof.
  unfold ArrayDB_init. destruct (create_db_prefix ArrayDB_cls var_key); [|reflexivity].
  unfold mbind, result_bind. rewrite ArrayDB_get_size_from_db_eq. reflexivity.
Qed.

Lemma size_in_sync_init (var_key : pyobj) (db : Database) (value_type : pytype)
    (st : Store) (self : ArrayDB) :
  ArrayDB_init var_key db value_type st = Ok self -> size_in_sync self st.
Proof.
  rewrite ArrayDB_init_eq. destruct (create_db_prefix _ _); [|discriminate].
  intros [= <-]. unfold size_in_sync. rewrite ArrayDB_get_size_from_db_eq. reflexivity.
Qed.

Lemma size_in_sync_set_size (self : ArrayDB) (size : Z) (st : Store) :
  size_in_sync (mkArrayDB (a_db self) (a_value_type self) size)
    (db_put st (a_db self) size_candidates (int_to_bytes size)).
Proof.
  unfold size_in_sync. rewrite ArrayDB_get_size_from_db_eq. cbn [a_db a_size].
  rewrite db_get_put_eq, bytes_to_int_to_bytes. reflexivity.
Qed.

Lemma size_in_sync_put (self self' : ArrayDB) (value : pyobj) (st st' : Store) :
  ArrayDB_put self value st = Ok (self', st') -> size_in_sync self' st'.
Proof.
  rewrite ArrayDB_put_eq. destruct (encode_value value); [|discriminate].
  intros [= <- <-]. apply (size_in_sync_set_size self).
Qed.

Lemma size_in_sync_pop (self self' : ArrayDB) (v : pyobj) (st st' : Store) :
  ArrayDB_pop self st = Ok (v, self', st') ->
  size_in_sync self st -> size_in_sync self' st'.
Proof.
  rewrite ArrayDB_pop_eq. destruct (a_size self =? 0).
  - intros [= <- <- <-]. auto.
  - destruct (ArrayDB_getitem _ _ _); [|discriminate].
    intros [= <- <- <-] _. apply (size_in_sync_set_size self).
Qed.

Lemma size_in_sync_setitem (self : ArrayDB) (index value : pyobj) (st st' : Store) :
  ArrayDB_setitem self index value st = Ok st' ->
  resolve st (a_db self) = V2 \/
    int_of (normalize_index (a_size self) index) <> size_collision_index ->
  size_in_sync self st -> size_in_sync self st'.
Proof.
  rewrite ArrayDB_setitem_eq. destruct (negb _); [discriminate|].
  destruct (in_range _ _); [|discriminate].
  destruct (encode_value value); [|discriminate].
  intros [= <-] Hk. unfold size_in_sync. rewrite !ArrayDB_get_size_from_db_eq.
  rewrite db_get_put_ne; [auto|].
  intros E. symmetry in E. revert E. apply size_key_ne_elem, Hk.
Qed.

(** C9, amended: construction, [put] and [pop] on a container that is
    not empty leave the cached size equal to the integer persisted under
    the reserved key (an absent value reading as 0); [pop] on an empty
    container and [self[index] = value] write no size and keep the two
    equal if they were (for the latter: when the region resolves under
    V2, or under V1 at an index other than 1936292453); [__len__] is the
    cached size and takes no store. *)
Theorem cached_size_in_sync (self : ArrayDB) (st : Store) :
  (forall var_key db value_type self0,
     ArrayDB_init var_key db value_type st = Ok self0 -> size_in_sync self0 st) /\
  (forall value self' st',
     ArrayDB_put self value st = Ok (self', st') -> size_in_sync self' st') /\
  (forall v self' st',
     ArrayDB_pop self st = Ok (v, self', st') ->
     a_size self <> 0 \/ size_in_sync self st -> size_in_sync self' st') /\
  (forall index value st',
     ArrayDB_setitem self index value st = Ok st' ->
     resolve st (a_db self) = V2 \/
       int_of (normalize_index (a_size self) index) <> size_collision_index ->
     size_in_sync self st -> size_in_sync self st') /\
  ArrayDB_len self = a_size self.
Proof.
  split; [|split; [|split; [|split]]].
  - intros var_key db value_type self0. apply size_in_sync_init.
  - intros value self' st'. apply size_in_sync_put.
  - intros v self' st' Hpop [Hne|Hsync].
    + revert Hpop. rewrite ArrayDB_pop_eq.
      destruct (Z.eqb_spec (a_size self) 0); [contradiction|].
      destruct (ArrayDB_getitem _ _ _); [|discriminate].
      intros [= <- <- <-]. apply (size_in_sync_set_size self).
    + exact (size_in_sync_pop _ _ _ _ _ Hpop Hsync).
  - intros index value st'. apply size_in_sync_setitem.
  - reflexivity.
Qed.

(** C9 as stated fails.  (1) Two containers built for one key on an empty
    store, under V2: after [put(1)] on the first, [pop()] on the second
    (cached size 0) returns [None] and writes nothing; its cached size is
    0 and the persisted size is 1.  (2) Under V1, on a region whose
    persisted size is 1936292454: [self[1936292453] = 7] writes the
    element under the reserved key itself; the persisted size then decodes
    to 7 and the cached size is still 1936292454. *)
Theorem cached_size_out_of_sync :
  (let st0 := mkStore V2 ∅ ∅ in
   exists A B A1 st1,
     ArrayDB_init (PyStr (pystr "a")) root_db TInt st0 = Ok A /\
     ArrayDB_init (PyStr (pystr "a")) root_db TInt st0 = Ok B /\
     ArrayDB_put A (PyInt 1) st0 = Ok (A1, st1) /\
     ArrayDB_pop B st1 = Ok (PyNone, B, st1) /\
     ArrayDB_len B = 0 /\
     ArrayDB_get_size_from_db (a_db B) st1 = Ok 1 /\
     ~ size_in_sync B st1) /\
  (let st0 :=
     mkStore V1 ∅ {[ [x00; x61] ++ size_bytes := int_to_bytes 1936292454 ]} in
   exists self st1,
     ArrayDB_init (PyStr (pystr "a")) root_db TInt st0 = Ok self /\
     size_in_sync self st0 /\
     ArrayDB_setitem self (PyInt 1936292453) (PyInt 7) st0 = Ok st1 /\
     ArrayDB_len self = 1936292454 /\
     ArrayDB_get_size_from_db (a_db self) st1 = Ok 7 /\
     ~ size_in_sync self st1).
Proof.
  split.
  - intros st0.
    set (A := mkArrayDB (mkDatabase false [x00; x61] [x00; x61]) TInt 0).
    exists A, A, (mkArrayDB (a_db A) TInt 1),
      (db_put (db_put st0 (a_db A) (elem_candidates 0) (int_to_bytes 1))
         (a_db A) size_candidates (int_to_bytes 1)).
    split; [vm_compute; reflexivity|].
    split; [vm_compute; reflexivity|].
    split; [rewrite ArrayDB_put_eq; reflexivity|].
    split; [apply ArrayDB_pop_empty; reflexivity|].
    split; [reflexivity|].
    split; [vm_compute; reflexivity|].
    vm_compute. discriminate.
  - intros st0.
    set (self := mkArrayDB (mkDatabase false [x00; x61] [x00; x61]) TInt 1936292454).
    exists self,
      (db_put st0 (a_db self) (elem_candidates 1936292453) (int_to_bytes 7)).
    split; [vm_compute; reflexivity|].
    split; [vm_compute; reflexivity|].
    split; [rewrite ArrayDB_setitem_eq; reflexivity|].
    split; [reflexivity|].
    split; [vm_compute; reflexivity|].
    vm_compute. discriminate.
Qed.

(** * ArrayDB against a Python list *)









(** * The element that shares its key with the size *)






(** * Regions *)

Lemma create_db_prefix_array (var_key : pyobj) (a : bytes) :
  encode_key var_key = Ok a ->
  create_db_prefix ArrayDB_cls var_key =
  Ok (mkCandidates [ARRAY_DB_ID; a] [ARRAY_DB_ID; rlp_encode_bytes a]).
Proof.
  intros H. unfold create_db_prefix, get_encoded_key_v1, get_encoded_key_v2.
  rewrite H. reflexivity.
Qed.

Lemma ArrayDB_init_db (var_key : pyobj) (a : bytes) (db : Database)
    (value_type : pytype) (st : Store) (self : ArrayDB) :
  encode_key var_key = Ok a ->
  ArrayDB_init var_key db value_type st = Ok self ->
  a_db self =
  get_sub_db db (mkCandidates [ARRAY_DB_ID; a] [ARRAY_DB_ID; rlp_encode_bytes a]).
Proof.
  intros Ha. rewrite ArrayDB_init_eq, (create_db_prefix_array _ _ Ha).
  intros [= <-]. reflexivity.
Qed.

(** The prefix of the sub-database of a tag and a key, under a scheme. *)
Lemma sub_db_prefix (s : Scheme) (db : Database) (tag a : bytes) :
  db_prefix s (get_sub_db db (mkCandidates [tag; a] [tag; rlp_encode_bytes a])) =
  db_prefix s db ++ tag ++ key_form s a.
Proof. destruct s; cbn; rewrite app_nil_r; reflexivity. Qed.

(** Byte strings that are apart stay different whatever follows them. *)
Lemma apart_app (p q x y : bytes) : apart p q -> p ++ x <> q ++ y.
Proof.
  intros [Hpq Hqp] E.
  destruct (prefix_weak_total p q (p ++ x)) as [H|H]; try contradiction.
  - exists x. reflexivity.
  - exists y. exact E.
Qed.

(** No key of one region is a key of the other. *)
Lemma separate_apart (db : Database) (tag : bytes) (sa sb : Scheme)
    (a b x y : bytes) :
  separate db tag sa sb a b ->
  (db_prefix sa db ++ tag ++ key_form sa a) ++ x <>
  (db_prefix sb db ++ tag ++ key_form sb b) ++ y.
Proof.
  destruct sa, sb; cbn [separate]; intros Hsep; try (apply apart_app, Hsep).
  - cbn [db_prefix key_form]. rewrite <- !app_assoc. intros E.
    do 2 apply app_inv_head in E. revert E. apply apart_app, Hsep.
  - cbn [db_prefix key_form]. rewrite <- !app_assoc. intros E.
    do 2 apply app_inv_head in E. destruct Hsep as (Hne & Fa & Fb).
    apply rlp_encode_bytes_prefix_free in E; [|assumption..]. apply Hne, E.
Qed.

Lemma regions_apart (db : Database) (tag : bytes) (sa sb : Scheme)
    (a b x y : bytes) :
  separate db tag sa sb a b ->
  db_prefix sa (get_sub_db db
      (mkCandidates [tag; a] [tag; rlp_encode_bytes a])) ++ x <>
  db_prefix sb (get_sub_db db
      (mkCandidates [tag; b] [tag; rlp_encode_bytes b])) ++ y.
Proof. rewrite !sub_db_prefix. apply separate_apart. Qed.

(** Below a parent whose two candidate prefixes are the same bytes (the
    root is one), regions resolved under different schemes are kept apart
    by key forms that are apart. *)
Lemma separate_cross (db : Database) (tag : bytes) (sa sb : Scheme)
    (a b : bytes) :
  prefix_v1 db = prefix_v2 db -> sa <> sb ->
  apart (key_form sa a) (key_form sb b) ->
  separate db tag sa sb a b.
Proof.
  intros Hp Hne [H1 H2].
  assert (Hq : db_prefix sa db ++ tag = db_prefix sb db ++ tag)
    by (destruct sa, sb; cbn; congruence).
  destruct sa, sb; try contradiction; cbn [separate]; rewrite !app_assoc, Hq;
    (split; intros H; [apply H1|apply H2]; eapply prefix_app_inv; exact H).
Qed.

Lemma data_put (st : Store) (db : Database) (key : candidates) (v : bytes) :
  data (db_put st db key v) = <[location st db key := v]> (data st).
Proof. reflexivity. Qed.

Lemma data_delete (st : Store) (db : Database) (key : candidates) :
  data (db_delete st db key) = delete (location st db key) (data st).
Proof. reflexivity. Qed.

(** A write and a deletion change the store under the prefix of their
    handle only. *)
Lemma db_put_frame (st : Store) (db : Database) (key : candidates) (v k : bytes) :
  (forall x, k <> region st db ++ x) ->
  data (db_put st db key v) !! k = data st !! k.
Proof.
  intros H. rewrite data_put. apply lookup_insert_ne. rewrite location_eq. auto.
Qed.

Lemma db_delete_frame (st : Store) (db : Database) (key : candidates) (k : bytes) :
  (forall x, k <> region st db ++ x) ->
  data (db_delete st db key) !! k = data st !! k.
Proof.
  intros H. rewrite data_delete. apply lookup_delete_ne. rewrite location_eq. auto.
Qed.


(** A call writes only under the prefix of its container, and leaves
    every region resolved as it was. *)
Lemma array_step_frame (op : array_op) (self : ArrayDB) (st : Store) :
  forall r self' st', array_step op self st = (r, self', st') ->
  (forall d, resolve st' d = resolve st d) /\ a_db self' = a_db self /\
  forall key, (forall x, key <> region st (a_db self) ++ x) ->
    data st' !! key = data st !! key.
Proof.
  intros r self' st'. destruct op as [v| |index v]; cbn [array_step].
  - rewrite ArrayDB_put_eq. destruct (encode_value v); intros [= <- <- <-];
      [|auto]. split; [reflexivity|]. split; [reflexivity|]. intros key Hk.
    rewrite !db_put_frame; [reflexivity|exact Hk..].
  - rewrite ArrayDB_pop_eq. destruct (a_size self =? 0); [intros [= <- <- <-]; auto|].
    destruct (ArrayDB_getitem _ _ _); intros [= <- <- <-]; [|auto].
    split; [reflexivity|]. split; [reflexivity|]. intros key Hk.
    rewrite db_put_frame, db_delete_frame; [reflexivity|exact Hk..].
  - rewrite ArrayDB_setitem_eq. destruct (negb _); [intros [= <- <- <-]; auto|].
    destruct (in_range _ _); [|intros [= <- <- <-]; auto].
    destruct (encode_value v); intros [= <- <- <-]; [|auto].
    split; [reflexivity|]. split; [reflexivity|]. intros key Hk.
    rewrite db_put_frame; [reflexivity|exact Hk].
Qed.

Lemma array_run_frame (ops : list array_op) :
  forall self st rs self' st', array_run ops self st = (rs, self', st') ->
  (forall d, resolve st' d = resolve st d) /\ a_db self' = a_db self /\
  forall key, (forall x, key <> region st (a_db self) ++ x) ->
    data st' !! key = data st !! key.
Proof.
  induction ops as [|op ops IH]; intros self st rs self' st'; cbn [array_run].
  - intros [= <- <- <-]. auto.
  - destruct (array_step op self st) as [[r self1] st1] eqn:E1.
    destruct (array_run ops self1 st1) as [[rs2 self2] st2] eqn:E2.
    intros [= <- <- <-].
    destruct (array_step_frame _ _ _ _ _ _ E1) as (Hs1 & Hd1 & Hk1).
    destruct (IH _ _ _ _ _ E2) as (Hs2 & Hd2 & Hk2).
    split; [intros d; rewrite Hs2; apply Hs1|]. split; [congruence|].
    intros key Hk. rewrite Hk2, Hk1; [reflexivity|exact Hk|].
    unfold region. rewrite Hs1, Hd1. exact Hk.
Qed.

(** What a container reads depends on the store under its prefix only. *)
Lemma db_get_ext (st st' : Store) (db : Database) (key : candidates) :
  resolve st' db = resolve st db ->
  (forall x, data st' !! (region st db ++ x) = data st !! (region st db ++ x)) ->
  db_get st' db key = db_get st db key.
Proof.
  intros Hs H. unfold db_get. rewrite !location_eq. unfold region.
  rewrite Hs. apply H.
Qed.

Lemma ArrayDB_get__ext (st st' : Store) (db : Database) (size : Z)
    (index : pyobj) (value_type : pytype) :
  resolve st' db = resolve st db ->
  (forall x, data st' !! (region st db ++ x) = data st !! (region st db ++ x)) ->
  ArrayDB_get_ db size index value_type st' = ArrayDB_get_ db size index value_type st.
Proof.
  intros Hs H. unfold ArrayDB_get_. destruct (negb _); [reflexivity|].
  destruct (in_range _ _); [|reflexivity].
  destruct (key_candidates _) as [key|]; [|reflexivity].
  cbn. rewrite (db_get_ext st st' db key Hs H). reflexivity.
Qed.

Lemma ArrayDB_gen_ext (st st' : Store) (db : Database) (size : Z)
    (value_type : pytype) (indices : list Z) :
  resolve st' db = resolve st db ->
  (forall x, data st' !! (region st db ++ x) = data st !! (region st db ++ x)) ->
  ArrayDB_gen db size value_type st' indices = ArrayDB_gen db size value_type st indices.
Proof.
  intros Hs H. induction indices as [|i rest IH]; [reflexivity|].
  cbn [ArrayDB_gen]. rewrite IH, (ArrayDB_get__ext st st' db size _ value_type Hs H).
  reflexivity.
Qed.

(** C5, amended (non-aliasing): two [ArrayDB]s on one parent, each region
    resolved by the store under its own scheme, with encoded [var_key]s
    that keep the two regions apart ([separate]: both regions under V2,
    different byte strings; both under V1, neither a prefix of the other;
    under two different schemes, region prefixes neither of which is a
    prefix of the other).  Whatever calls are made on the first ([put],
    [pop], [self[i] = v], in any number, failing or not), every [get],
    the iteration and the length of the second are what they were, and
    building the second anew gives the same container. *)
Theorem ArrayDB_non_aliasing (db : Database) (kA kB : pyobj) (a b : bytes)
    (vtA vtB : pytype) (st : Store) (A B : ArrayDB) (ops : list array_op) :
  encode_key kA = Ok a -> encode_key kB = Ok b ->
  ArrayDB_init kA db vtA st = Ok A ->
  ArrayDB_init kB db vtB st = Ok B ->
  separate db ARRAY_DB_ID (resolve st (a_db A)) (resolve st (a_db B)) a b ->
  exists rs A' st',
    array_run ops A st = (rs, A', st') /\
    (forall index, ArrayDB_get B index st' = ArrayDB_get B index st) /\
    ArrayDB_iter B st' = ArrayDB_iter B st /\
    ArrayDB_init kB db vtB st' = Ok B.
Proof.
  intros Ha Hb HA HB Hsep.
  destruct (array_run ops A st) as [[rs A'] st'] eqn:Erun.
  exists rs, A', st'. split; [reflexivity|].
  destruct (array_run_frame _ _ _ _ _ _ Erun) as (Hs & _ & Hframe).
  pose proof (ArrayDB_init_db _ _ _ _ _ _ Ha HA) as EA.
  pose proof (ArrayDB_init_db _ _ _ _ _ _ Hb HB) as EB.
  assert (Hext : forall x, data st' !! (region st (a_db B) ++ x)
                           = data st !! (region st (a_db B) ++ x)).
  { intros x. apply Hframe. intros y E. unfold region in E.
    revert Hsep E. rewrite EA, EB. intros Hsep E.
    symmetry in E. exact (regions_apart _ _ _ _ _ _ _ _ Hsep E). }
  split; [|split].
  - intros index. apply ArrayDB_get__ext; [apply Hs|exact Hext].
  - apply ArrayDB_gen_ext; [apply Hs|exact Hext].
  - rewrite <- HB, !ArrayDB_init_eq.
    destruct (create_db_prefix ArrayDB_cls kB) as [p|] eqn:Ep; [|reflexivity].
    rewrite (db_get_ext st st' (get_sub_db db p) size_candidates (Hs _));
      [reflexivity|].
    rewrite (create_db_prefix_array _ _ Hb) in Ep. injection Ep as <-.
    rewrite EB in Hext. exact Hext.
Qed.

(** C5 as stated fails: the keys 97 (an [int]) and ['a'] (a [str]) are
    distinct and have the same encoded form under both schemes.  On a
    store where [ArrayDB(97)] holds one element, 1, the containers built
    for 97 and for ['a'] both have length 1, and [self[0] = 2] on the
    first changes [get(0)] and the iteration of the second from 1 to 2. *)
Theorem ArrayDB_aliasing_int_str_keys :
  let st0 := mkStore V2 ∅ ∅ in
  exists W0 W1 st A B rs A' st',
    ArrayDB_init (PyInt 97) root_db TInt st0 = Ok W0 /\
    ArrayDB_put W0 (PyInt 1) st0 = Ok (W1, st) /\
    PyInt 97 <> PyStr (pystr "a") /\
    ArrayDB_init (PyInt 97) root_db TInt st = Ok A /\
    ArrayDB_init (PyStr (pystr "a")) root_db TInt st = Ok B /\
    array_run [SetItem (PyInt 0) (PyInt 2)] A st = (rs, A', st') /\
    ArrayDB_get B (PyInt 0) st = Ok (PyInt 1) /\
    ArrayDB_get B (PyInt 0) st' = Ok (PyInt 2) /\
    ArrayDB_iter B st = Ok [PyInt 1] /\
    ArrayDB_iter B st' = Ok [PyInt 2].
Proof.
  intros st0.
  set (dbA := mkDatabase false [x00; x61] [x00; x61]).
  set (st := db_put (db_put st0 dbA (elem_candidates 0) (int_to_bytes 1))
               dbA size_candidates (int_to_bytes 1)).
  set (A := mkArrayDB dbA TInt 1).
  exists (mkArrayDB dbA TInt 0), A, st, A, A, [Ok PyNone], A,
    (db_put st dbA (elem_candidates 0) (int_to_bytes 2)).
  split; [vm_compute; reflexivity|].
  split; [rewrite ArrayDB_put_eq; reflexivity|].
  split; [discriminate|].
  split; [vm_compute; reflexivity|].
  split; [vm_compute; reflexivity|].
  split; [cbn [array_run array_step]; rewrite ArrayDB_setitem_eq; reflexivity|].
  repeat split; vm_compute; reflexivity.
Qed.

(** Under V1, where the parts of a key are joined bare, regions overlap
    as soon as one encoded [var_key] starts with the other: element 25088
    of [ArrayDB('a')] and element 0 of [ArrayDB('ab')] have one key. *)
Lemma v1_regions_overlap :
  exists A B,
    ArrayDB_init (PyStr (pystr "a")) root_db TInt (mkStore V1 ∅ ∅) = Ok A /\
    ArrayDB_init (PyStr (pystr "ab")) root_db TInt (mkStore V1 ∅ ∅) = Ok B /\
    full_key V1 (a_db A) (elem_candidates 25088) =
    full_key V1 (a_db B) (elem_candidates 0) /\
    full_key V2 (a_db A) (elem_candidates 25088) <>
    full_key V2 (a_db B) (elem_candidates 0).
Proof.
  do 2 eexists. split; [vm_compute; reflexivity|].
  split; [vm_compute; reflexivity|].
  split; [vm_compute; reflexivity|]. vm_compute. discriminate.
Qed.

(** Two regions resolved under different schemes can be one region even
    when their encoded [var_key]s keep them apart under V1 and under V2:
    the key [81 80] under V1 and the key [80], framed to [81 80], under
    V2.  In a store where the location [00 81 80] is active under V1 and
    new data is written under V2, [ArrayDB(b'\x81\x80')] resolves under V1
    and [ArrayDB(b'\x80')] under V2, to the same prefix; element 0 has the
    same key in both, and [put(7)] on the first changes [get(0)] of the
    second from 5 to 7. *)
Lemma cross_scheme_regions_overlap :
  let a := [x81; x80] in
  let b := [x80] in
  let st := mkStore V2 {[ [x00; x81; x80] := V1 ]}
              {[ [x00; x81; x80] := int_to_bytes 1;
                 [x00; x81; x80; x00] := int_to_bytes 5 ]} in
  exists A B A' st',
    ArrayDB_init (PyBytes a) root_db TInt st = Ok A /\
    ArrayDB_init (PyBytes b) root_db TInt st = Ok B /\
    resolve st (a_db A) = V1 /\ resolve st (a_db B) = V2 /\
    separate root_db ARRAY_DB_ID V1 V1 a b /\
    separate root_db ARRAY_DB_ID V2 V2 a b /\
    region st (a_db A) = region st (a_db B) /\
    ArrayDB_len A = 0 /\ ArrayDB_len B = 1 /\
    ArrayDB_put A (PyInt 7) st = Ok (A', st') /\
    ArrayDB_get B (PyInt 0) st = Ok (PyInt 5) /\
    ArrayDB_get B (PyInt 0) st' = Ok (PyInt 7).
Proof.
  intros a b st.
  set (A := mkArrayDB (mkDatabase false [x00; x81; x80] [x00; x82; x81; x80]) TInt 0).
  set (B := mkArrayDB (mkDatabase false [x00; x80] [x00; x81; x80]) TInt 1).
  exists A, B, (mkArrayDB (a_db A) TInt 1),
    (db_put (db_put st (a_db A) (elem_candidates 0) (int_to_bytes 7))
       (a_db A) size_candidates (int_to_bytes 1)).
  split; [vm_compute; reflexivity|].
  split; [vm_compute; reflexivity|].
  split; [vm_compute; reflexivity|].
  split; [vm_compute; reflexivity|].
  split.
  { split; intros [k Hk]; discriminate Hk. }
  split.
  { split; [discriminate|]. split; vm_compute; reflexivity. }
  split; [vm_compute; reflexivity|].
  split; [reflexivity|]. split; [reflexivity|].
  split; [rewrite ArrayDB_put_eq; reflexivity|].
  split; vm_compute; reflexivity.
Qed.

(** * The theorems at concrete inputs *)

(** Framing [7f], [80] and 56 bytes ['a']. *)
Lemma rlp_encode_bytes_frames_witness :
  rlp_encode_bytes [x7f] = [x7f] /\
  (exists h, rlp_encode_bytes [x80] = h :: [x80] /\ byte_val h = 0x80 + 1) /\
  (exists h lb, rlp_encode_bytes (repeat x61 56) = h :: lb ++ repeat x61 56 /\
     byte_val h = 0x80 + 55 + Z.of_nat (length lb) /\ be_minimal lb 56) /\
  (length [x80] < length (rlp_encode_bytes [x80]))%nat.
Proof.
  assert (Hn : ~ passthrough [x80]).
  { intros (b0 & E & H). injection E as <-. vm_compute in H. discriminate H. }
  split; [|split; [|split]].
  - apply (rlp_encode_bytes_frames [x7f]). exists x7f. split; reflexivity.
  - apply (rlp_encode_bytes_frames [x80]); [exact Hn|]. vm_compute. discriminate.
  - apply (rlp_encode_bytes_frames (repeat x61 56)). split; reflexivity.
  - apply (rlp_encode_bytes_frames [x80]). exact Hn.
Defined.

(** The string "h", U+00E9, U+20AC, U+1F600: one code point of each
    UTF-8 length. *)
Lemma decode_encode_roundtrip_witness :
  let v := PyStr [104; 233; 8364; 128512] in
  supported_type TStr = true /\ type_of v = TStr /\ str_valid v /\
  exists b, encode_value v = Ok b /\ decode_object (Some b) TStr = Ok v.
Proof.
  intros v.
  assert (Hs : str_valid v) by (repeat constructor).
  split; [reflexivity|]. split; [reflexivity|]. split; [exact Hs|].
  exact (decode_encode_roundtrip TStr v eq_refl eq_refl Hs).
Defined.

(** A store that writes new data under V2 and where the location of
    [ArrayDB('a')] is active under V1: the container of ['a'] resolves
    under V1 and is empty, the container of ['b'] resolves under V2 and
    holds 5 and 6.  Calls on the first, at the indices of the second. *)
Lemma ArrayDB_non_aliasing_witness :
  let dbA := mkDatabase false [x00; x61] [x00; x61] in
  let dbB := mkDatabase false [x00; x62] [x00; x62] in
  let st := db_put (db_put (db_put (mkStore V2 {[ [x00; x61] := V1 ]} ∅)
                      dbB (elem_candidates 0) (int_to_bytes 5))
                      dbB (elem_candidates 1) (int_to_bytes 6))
                      dbB size_candidates (int_to_bytes 2) in
  let A := mkArrayDB dbA TInt 0 in
  let B := mkArrayDB dbB TInt 2 in
  let ops := [Append (PyInt 1); Append (PyInt 3); SetItem (PyInt 0) (PyInt 2); Pop] in
  ArrayDB_init (PyStr (pystr "a")) root_db TInt st = Ok A /\
  ArrayDB_init (PyStr (pystr "b")) root_db TInt st = Ok B /\
  resolve st (a_db A) = V1 /\ resolve st (a_db B) = V2 /\
  separate root_db ARRAY_DB_ID (resolve st (a_db A)) (resolve st (a_db B))
    [x61] [x62] /\
  exists rs A' st',
    array_run ops A st = (rs, A', st') /\
    ArrayDB_len A' = 1 /\ ArrayDB_get A' (PyInt 0) st' = Ok (PyInt 2) /\
    (forall index, ArrayDB_get B index st' = ArrayDB_get B index st) /\
    ArrayDB_get B (PyInt 0) st' = Ok (PyInt 5) /\
    ArrayDB_iter B st' = Ok [PyInt 5; PyInt 6] /\
    ArrayDB_init (PyStr (pystr "b")) root_db TInt st' = Ok B.
Proof.
  intros dbA dbB st A B ops.
  assert (HA : ArrayDB_init (PyStr (pystr "a")) root_db TInt st = Ok A)
    by (vm_compute; reflexivity).
  assert (HB : ArrayDB_init (PyStr (pystr "b")) root_db TInt st = Ok B)
    by (vm_compute; reflexivity).
  assert (HsA : resolve st (a_db A) = V1) by reflexivity.
  assert (HsB : resolve st (a_db B) = V2) by reflexivity.
  assert (Hsep : separate root_db ARRAY_DB_ID (resolve st (a_db A))
                   (resolve st (a_db B)) [x61] [x62]).
  { rewrite HsA, HsB. apply separate_cross; [reflexivity|discriminate|].
    split; intros [k Hk]; discriminate Hk. }
  split; [exact HA|]. split; [exact HB|]. split; [exact HsA|].
  split; [exact HsB|]. split; [exact Hsep|].
  destruct (ArrayDB_non_aliasing root_db (PyStr (pystr "a")) (PyStr (pystr "b"))
              [x61] [x62] TInt TInt st A B ops eq_refl eq_refl HA HB Hsep)
    as (rs & A' & st' & Erun & Hget & Hiter & Hinit).
  exists rs, A', st'. split; [exact Erun|].
  assert (E0 : array_run ops A st =
            ([Ok PyNone; Ok PyNone; Ok PyNone; Ok (PyInt 3)], mkArrayDB dbA TInt 1,
             db_put (db_delete
               (db_put
                 (db_put (db_put (db_put (db_put st dbA (elem_candidates 0) (int_to_bytes 1))
                    dbA size_candidates (int_to_bytes 1))
                    dbA (elem_candidates 1) (int_to_bytes 3))
                    dbA size_candidates (int_to_bytes 2))
                 dbA (elem_candidates 0) (int_to_bytes 2))
               dbA (elem_candidates 1)) dbA size_candidates (int_to_bytes 1))).
  { vm_compute. reflexivity. }
  rewrite E0 in Erun. injection Erun as <- <- <-.
  split; [reflexivity|]. split; [vm_compute; reflexivity|].
  split; [exact Hget|].
  split; [rewrite Hget; vm_compute; reflexivity|].
  split; [rewrite Hiter; vm_compute; reflexivity|exact Hinit].
Defined.


(** The scenario of the spec: a map of depth 2; [set] on it fails,
    [self['k']] is the map of depth 1 below ['k'], on which [set] and
    [get] succeed. *)
Lemma DictDB_depth_enforcement_witness :
  let st := mkStore V2 ∅ ∅ in
  let key := PyStr (pystr "k") in
  let outer := mkDictDB (mkDatabase false [x01; x6d] [x01; x6d]) TInt 2 in
  let inner := mkDictDB (mkDatabase false [x01; x6d; x6b] [x01; x6d; x6b]) TInt 1 in
  let st1 := db_put st (d_db inner) (mkCandidates [[x6b]] [[x6b]]) (int_to_bytes 1) in
  DictDB_init (PyStr (pystr "m")) root_db TInt 2 = Ok outer /\
  DictDB_setitem outer key (PyInt 1) st = Raise depth_mismatch /\
  DictDB_remove outer key st = Raise depth_mismatch /\
  DictDB_getitem outer key st = Ok (ItemDict inner) /\
  DictDB_init key (d_db outer) TInt 1 = Ok inner /\
  DictDB_setitem inner key (PyInt 1) st = Ok st1 /\
  DictDB_getitem inner key st = Ok (ItemValue (PyInt 0)) /\
  DictDB_getitem inner key st1 = Ok (ItemValue (PyInt 1)).
Proof.
  intros st key outer inner st1.
  assert (Ho : DictDB_init (PyStr (pystr "m")) root_db TInt 2 = Ok outer)
    by (vm_compute; reflexivity).
  assert (Hi : DictDB_init key (d_db outer) TInt 1 = Ok inner)
    by (vm_compute; reflexivity).
  destruct (DictDB_depth_enforcement (PyStr (pystr "m")) root_db TInt 2 outer key
              (PyInt 1) st Ho) as (H2 & _ & Hok2 & _).
  destruct (H2 ltac:(discriminate)) as (Hset & Hrm & _).
  destruct (Hok2 [x6b] eq_refl) as (Hget & _).
  destruct (DictDB_depth_enforcement key (d_db outer) TInt 1 inner key
              (PyInt 1) st Hi) as (_ & _ & Hok1 & _).
  destruct (Hok1 [x6b] eq_refl) as (_ & H1).
  destruct (H1 eq_refl) as (Hset1 & _ & _ & _ & Hget1).
  destruct (DictDB_depth_enforcement key (d_db outer) TInt 1 inner key
              (PyInt 1) st1 Hi) as (_ & _ & Hok1' & _).
  destruct (Hok1' [x6b] eq_refl) as (_ & H1').
  destruct (H1' eq_refl) as (_ & _ & _ & _ & Hget1').
  split; [exact Ho|]. split; [exact Hset|]. split; [exact Hrm|].
  split; [exact (Hget ltac:(discriminate) st)|]. split; [exact Hi|].
  split; [exact (Hset1 (int_to_bytes 1) eq_refl)|].
  split; [rewrite Hget1; vm_compute; reflexivity|].
  rewrite Hget1'. vm_compute. reflexivity.
Defined.

(** An integer scalar: before any [set], and after [set(42)], [remove()]. *)
Lemma VarDB_zero_value_witness :
  let st := mkStore V2 ∅ ∅ in
  exists self st1,
    VarDB_init (PyStr (pystr "x")) root_db TInt = Ok self /\
    VarDB_get self st = Ok (PyInt 0) /\
    VarDB_set self (PyInt 42) st = Ok st1 /\
    VarDB_get self st1 = Ok (PyInt 42) /\
    VarDB_get self (VarDB_remove self st1) = Ok (PyInt 0).
Proof.
  intros st.
  set (self := mkVarDB (mkDatabase false [x02] [x02])
                 (mkCandidates [[x78]] [[x78]]) TInt).
  assert (Hinit : VarDB_init (PyStr (pystr "x")) root_db TInt = Ok self)
    by (vm_compute; reflexivity).
  destruct (VarDB_zero_value _ _ _ self st Hinit) as (H0 & H1 & _).
  exists self, (db_put st (v_db self) (v_var_byte_key self) (int_to_bytes 42)).
  split; [exact Hinit|]. split; [apply H0; apply lookup_empty|].
  split; [reflexivity|]. split; [vm_compute; reflexivity|].
  apply (H1 (PyInt 42)). reflexivity.
Defined.

(** A [put] and a [pop] on the container of ['a'] over an empty store. *)
Lemma cached_size_in_sync_witness :
  let st := mkStore V2 ∅ ∅ in
  let self := mkArrayDB (mkDatabase false [x00; x61] [x00; x61]) TInt 0 in
  exists self1 st1 self2 st2,
    ArrayDB_init (PyStr (pystr "a")) root_db TInt st = Ok self /\
    size_in_sync self st /\
    ArrayDB_put self (PyInt 7) st = Ok (self1, st1) /\ size_in_sync self1 st1 /\
    ArrayDB_pop self1 st1 = Ok (PyInt 7, self2, st2) /\ size_in_sync self2 st2.
Proof.
  intros st self.
  set (st1 := db_put (db_put st (a_db self) (elem_candidates 0) (int_to_bytes 7))
                (a_db self) size_candidates (int_to_bytes 1)).
  set (self1 := mkArrayDB (a_db self) TInt 1).
  set (st2 := db_put (db_delete st1 (a_db self) (elem_candidates 0))
                (a_db self) size_candidates (int_to_bytes 0)).
  assert (Hinit : ArrayDB_init (PyStr (pystr "a")) root_db TInt st = Ok self)
    by (vm_compute; reflexivity).
  assert (Hput : ArrayDB_put self (PyInt 7) st = Ok (self1, st1))
    by (rewrite ArrayDB_put_eq; reflexivity).
  assert (Hpop : ArrayDB_pop self1 st1 = Ok (PyInt 7, mkArrayDB (a_db self) TInt 0, st2)).
  { rewrite ArrayDB_pop_eq. cbn [a_size self1 Z.eqb].
    replace (ArrayDB_getitem self1 (PyInt (1 - 1)) st1) with (@Ok pyobj (PyInt 7))
      by (vm_compute; reflexivity).
    reflexivity. }
  exists self1, st1, (mkArrayDB (a_db self) TInt 0), st2.
  split; [exact Hinit|].
  split; [exact (proj1 (cached_size_in_sync self st) _ _ _ _ Hinit)|].
  split; [exact Hput|].
  split; [exact (proj1 (proj2 (cached_size_in_sync self st)) _ _ _ Hput)|].
  split; [exact Hpop|].
  apply (proj1 (proj2 (proj2 (cached_size_in_sync self1 st1))) _ _ _ Hpop).
  left. discriminate.
Defined.

(** The class [float] and a stored byte. *)
Lemma decode_object_unsupported_type_witness :
  supported_type (TOther "float") = false /\
  decode_object (Some [x01]) (TOther "float") = Ok PyNone /\
  decode_object None (TOther "float") = Ok PyNone /\
  get_default_value (TOther "float") = PyNone.
Proof.
  split; [reflexivity|].
  split; [exact (proj1 (decode_object_unsupported_type (TOther "float") (Some [x01]) eq_refl))|].
  exact (decode_object_unsupported_type (TOther "float") None eq_refl).
Defined.


(** * Further properties of the codec *)

(** X1: for a length [x] with [0 <= x < 2^53], [rlp_get_bytes(x)] is the
    big-endian form of [x] in the fewest bytes: read back as an unsigned
    big-endian integer it gives [x], it has no leading zero byte, at most
    7 bytes, and it is empty exactly for [x = 0]. *)
Theorem rlp_get_bytes_big_endian (x : Z) :
  0 <= x < 2 ^ 53 ->
  be_value (rlp_get_bytes x) = x /\
  (forall h t, rlp_get_bytes x = h :: t -> byte_val h <> 0) /\
  (length (rlp_get_bytes x) <= 7)%nat /\
  (rlp_get_bytes x = [] <-> x = 0).
Proof.
  intros Hx. destruct (rlp_get_bytes_minimal x (proj1 Hx)) as [Hv Hm].
  split; [exact Hv|]. split; [exact Hm|]. split.
  - destruct (Z.eq_dec x 0) as [->|Hne]; [cbn; lia|].
    pose proof (be_minimal_bounds _ _ (conj Hv Hm) ltac:(lia)) as [Hlo _].
    destruct (le_gt_dec (length (rlp_get_bytes x)) 7) as [|Hgt]; [assumption|exfalso].
    assert (256 ^ 7 <= 256 ^ (Z.of_nat (length (rlp_get_bytes x)) - 1))
      by (apply Z.pow_le_mono_r; lia).
    assert (2 ^ 53 < 256 ^ 7) by (vm_compute; reflexivity). lia.
  - split.
    + intros E. rewrite E in Hv. cbn in Hv. lia.
    + intros ->. reflexivity.
Qed.

Lemma rlp_get_bytes_big_endian_witness :
  0 <= 1000 < 2 ^ 53 /\
  rlp_get_bytes 1000 = [x03; xe8] /\
  be_value (rlp_get_bytes 1000) = 1000 /\
  (length (rlp_get_bytes 1000) <= 7)%nat.
Proof.
  assert (H : 0 <= 1000 < 2 ^ 53) by (split; [discriminate|reflexivity]).
  destruct (rlp_get_bytes_big_endian 1000 H) as (Hv & _ & Hl & _).
  split; [exact H|]. split; [vm_compute; reflexivity|]. split; [exact Hv|exact Hl].
Defined.

(** X2: frames are self-delimiting.  If two byte strings, each shorter
    than 2^53 bytes, are framed by [rlp_encode_bytes] and followed by
    anything, and the two results are equal, then the payloads are equal
    and so is what follows; in particular distinct payloads have distinct
    frames, and no frame is a proper prefix of another. *)
Theorem rlp_encode_bytes_self_delimiting (a b x y : bytes) :
  framable a -> framable b ->
  (rlp_encode_bytes a ++ x = rlp_encode_bytes b ++ y -> a = b /\ x = y) /\
  (rlp_encode_bytes a = rlp_encode_bytes b -> a = b) /\
  (rlp_encode_bytes a `prefix_of` rlp_encode_bytes b -> a = b).
Proof.
  intros Fa Fb. split; [|split].
  - apply rlp_encode_bytes_prefix_free; assumption.
  - intros E. apply (rlp_encode_bytes_prefix_free a b [] []); [assumption..|].
    rewrite !app_nil_r. exact E.
  - intros [k Hk].
    apply (rlp_encode_bytes_prefix_free a b k []); [assumption..|].
    rewrite app_nil_r. symmetry. exact Hk.
Qed.

Lemma rlp_encode_bytes_self_delimiting_witness :
  framable [x01] /\ framable [x01; x02] /\
  rlp_encode_bytes [x01] ++ [x82; x01; x02] = [x01; x82; x01; x02] /\
  (forall b y, framable b ->
     rlp_encode_bytes b ++ y = [x01; x82; x01; x02] ->
     b = [x01] /\ y = rlp_encode_bytes [x01; x02]).
Proof.
  assert (F1 : framable [x01]) by reflexivity.
  assert (F2 : framable [x01; x02]) by reflexivity.
  split; [exact F1|]. split; [exact F2|]. split; [reflexivity|].
  intros b y Fb E.
  destruct (proj1 (rlp_encode_bytes_self_delimiting [x01] b [x82; x01; x02] y F1 Fb))
    as [Hb Hy].
  - rewrite E. reflexivity.
  - split; [symmetry; exact Hb|]. rewrite <- Hy. reflexivity.
Defined.

Lemma str_encode_ok_scalars (s : list Z) (b : bytes) :
  str_encode s = Ok b -> Forall (fun c => is_scalar c = true) s.
Proof.
  revert b. induction s as [|c s IH]; intros b; [constructor|].
  cbn [str_encode]. unfold utf8_encode_cp.
  destruct (is_scalar c) eqn:Hc; cbn [negb]; [|discriminate].
  destruct (str_encode s) as [r|e]; [|destruct (c <? 128), (c <? 2048), (c <? 65536); discriminate].
  intros _. constructor; [exact Hc|]. exact (IH r eq_refl).
Qed.

Lemma str_encode_raises (s : list Z) (e : exn) :
  str_encode s = Raise e -> e = UnicodeEncodeError.
Proof.
  induction s as [|c s IH]; [discriminate|].
  cbn [str_encode]. unfold utf8_encode_cp.
  destruct (is_scalar c); cbn [negb].
  - destruct (str_encode s) as [r|e'];
      destruct (c <? 128), (c <? 2048), (c <? 65536); try discriminate;
      intros [= <-]; apply IH; reflexivity.
  - intros [= <-]. reflexivity.
Qed.

(** X3: what [encode_key] and [encode_value] accept.  [encode_key]
    returns bytes exactly for an [int] (a [bool] included), an [Address],
    a [bytes] and a [str] of Unicode scalar values; it raises
    InvalidParamsException('key is None') for [None], an
    InvalidParamsException for an object of any other class, and lets
    UnicodeEncodeError through for a [str] with a code point that has no
    UTF-8 form.  [encode_value] accepts the same objects and returns the
    same bytes. *)
Theorem encode_key_accepts (key : pyobj) :
  ((exists b, encode_key key = Ok b) <->
     (isinstance_int key = true \/ logical_key key)) /\
  (key = PyNone -> encode_key key = Raise (InvalidParamsException "key is None")) /\
  (forall cls, key = PyOther cls ->
     exists msg, encode_key key = Raise (InvalidParamsException msg)) /\
  (forall s, key = PyStr s -> ~ str_valid key ->
     encode_key key = Raise UnicodeEncodeError) /\
  (forall b, encode_key key = Ok b <-> encode_value key = Ok b).
Proof.
  split; [|split; [|split; [|split]]].
  - split.
    + intros [b Hb]. destruct key as [|n|x|s|a|y|c]; cbn in *; try discriminate; auto.
      right. exact (str_encode_ok_scalars s b Hb).
    + intros [Hi|Hl].
      * destruct key; try discriminate; eexists; reflexivity.
      * apply encode_key_logical, Hl.
  - intros ->. reflexivity.
  - intros cls ->. eexists. reflexivity.
  - intros s -> Hn. cbn in *. destruct (str_encode s) as [b|e] eqn:E.
    + exfalso. apply Hn. exact (str_encode_ok_scalars s b E).
    + rewrite (str_encode_raises s e E). reflexivity.
  - intros b. destruct key; cbn; split; intros H; try discriminate; exact H.
Qed.

(** * Regions of the three kinds of container *)

Lemma create_db_prefix_dict (var_key : pyobj) (a : bytes) :
  encode_key var_key = Ok a ->
  create_db_prefix DictDB_cls var_key =
  Ok (mkCandidates [DICT_DB_ID; a] [DICT_DB_ID; rlp_encode_bytes a]).
Proof.
  intros H. unfold create_db_prefix, get_encoded_key_v1, get_encoded_key_v2.
  rewrite H. reflexivity.
Qed.

Lemma ArrayDB_init_prefix (var_key : pyobj) (db : Database) (vt : pytype)
    (st : Store) (self : ArrayDB) (s : Scheme) :
  ArrayDB_init var_key db vt st = Ok self ->
  exists rest, db_prefix s (a_db self) = db_prefix s db ++ x00 :: rest.
Proof.
  rewrite ArrayDB_init_eq. unfold create_db_prefix, get_encoded_key_v1, get_encoded_key_v2.
  destruct (encode_key var_key) as [a|]; [|discriminate]. cbn.
  intros [= <-]. destruct s; cbn; eexists; reflexivity.
Qed.

Lemma DictDB_init_prefix (var_key : pyobj) (db : Database) (vt : pytype)
    (depth : Z) (self : DictDB) (s : Scheme) :
  is_root db = true ->
  DictDB_init var_key db vt depth = Ok self ->
  exists rest, db_prefix s (d_db self) = db_prefix s db ++ x01 :: rest.
Proof.
  intros Hr. unfold DictDB_init. rewrite Hr.
  unfold create_db_prefix, get_encoded_key_v1, get_encoded_key_v2.
  destruct (encode_key var_key) as [a|]; [|discriminate]. cbn.
  intros [= <-]. destruct s; cbn; eexists; reflexivity.
Qed.

Lemma VarDB_init_prefix (var_key : pyobj) (db : Database) (vt : pytype)
    (self : VarDB) (s : Scheme) :
  VarDB_init var_key db vt = Ok self ->
  db_prefix s (v_db self) = db_prefix s db ++ [x02].
Proof.
  unfold VarDB_init. destruct (key_candidates var_key); [|discriminate].
  cbn. intros [= <-]. destruct s; reflexivity.
Qed.

(** X4: the container tags keep the three kinds apart.  For an [ArrayDB],
    a [DictDB] and a [VarDB] built on one root database, with any
    [var_key]s, under either scheme: no key of the one (an element, the
    size, an entry, the scalar) is a key of another.  On a root whose two
    candidate prefixes are the same bytes (as those of [root_db]) this
    holds as well for the locations the store resolves, whatever scheme it
    resolves each of the three regions under. *)
Theorem container_kinds_apart (db : Database) (kA kD kV : pyobj)
    (vtA vtD vtV : pytype) (depth : Z) (st : Store)
    (A : ArrayDB) (D : DictDB) (V : VarDB) (s : Scheme)
    (keyA keyD : candidates) :
  is_root db = true ->
  ArrayDB_init kA db vtA st = Ok A ->
  DictDB_init kD db vtD depth = Ok D ->
  VarDB_init kV db vtV = Ok V ->
  full_key s (a_db A) keyA <> full_key s (d_db D) keyD /\
  full_key s (a_db A) keyA <> full_key s (v_db V) (v_var_byte_key V) /\
  full_key s (d_db D) keyD <> full_key s (v_db V) (v_var_byte_key V) /\
  (prefix_v1 db = prefix_v2 db ->
   forall st',
     location st' (a_db A) keyA <> location st' (d_db D) keyD /\
     location st' (a_db A) keyA <> location st' (v_db V) (v_var_byte_key V) /\
     location st' (d_db D) keyD <> location st' (v_db V) (v_var_byte_key V)).
Proof.
  intros Hr HA HD HV.
  assert (Hany : forall sA sD sV,
            db_prefix sA db = db_prefix sD db -> db_prefix sA db = db_prefix sV db ->
            full_key sA (a_db A) keyA <> full_key sD (d_db D) keyD /\
            full_key sA (a_db A) keyA <> full_key sV (v_db V) (v_var_byte_key V) /\
            full_key sD (d_db D) keyD <> full_key sV (v_db V) (v_var_byte_key V)).
  { intros sA sD sV HAD HAV. rewrite !full_key_eq.
    destruct (ArrayDB_init_prefix _ _ _ _ _ sA HA) as [ra ->].
    destruct (DictDB_init_prefix _ _ _ _ _ sD Hr HD) as [rd ->].
    rewrite (VarDB_init_prefix _ _ _ _ sV HV), <- HAD, <- HAV.
    repeat split; intros E; rewrite <- !app_assoc in E; apply app_inv_head in E;
      cbn in E; discriminate E. }
  destruct (Hany s s s eq_refl eq_refl) as (H1 & H2 & H3).
  split; [exact H1|]. split; [exact H2|]. split; [exact H3|].
  intros Hp st'. unfold location. apply Hany.
  - destruct (resolve st' (a_db A)), (resolve st' (d_db D)); cbn; congruence.
  - destruct (resolve st' (a_db A)), (resolve st' (v_db V)); cbn; congruence.
Qed.

(** A store where the locations of the sequence and of the map are active
    under V1 while the scalars resolve under V2. *)
Lemma container_kinds_apart_witness :
  let st := mkStore V2 {[ [x00; x6b] := V1; [x01; x6b] := V1 ]} ∅ in
  let k := PyStr (pystr "k") in
  exists A D V,
    ArrayDB_init k root_db TInt st = Ok A /\
    DictDB_init k root_db TInt 1 = Ok D /\
    VarDB_init k root_db TInt = Ok V /\
    full_key V1 (a_db A) size_candidates <>
      full_key V1 (d_db D) (mkCandidates [size_bytes] [size_bytes]) /\
    full_key V1 (a_db A) (elem_candidates 0) <>
      full_key V1 (v_db V) (v_var_byte_key V) /\
    resolve st (a_db A) = V1 /\ resolve st (v_db V) = V2 /\
    location st (a_db A) (elem_candidates 0) <>
      location st (v_db V) (v_var_byte_key V).
Proof.
  intros st k.
  set (A := mkArrayDB (mkDatabase false [x00; x6b] [x00; x6b]) TInt 0).
  set (D := mkDictDB (mkDatabase false [x01; x6b] [x01; x6b]) TInt 1).
  set (V := mkVarDB (mkDatabase false [x02] [x02]) (mkCandidates [[x6b]] [[x6b]]) TInt).
  assert (HA : ArrayDB_init k root_db TInt st = Ok A) by (vm_compute; reflexivity).
  assert (HD : DictDB_init k root_db TInt 1 = Ok D) by (vm_compute; reflexivity).
  assert (HV : VarDB_init k root_db TInt = Ok V) by (vm_compute; reflexivity).
  exists A, D, V. split; [exact HA|]. split; [exact HD|]. split; [exact HV|].
  split.
  { exact (proj1 (container_kinds_apart root_db k k k TInt TInt TInt 1 st A D V V1
                    size_candidates (mkCandidates [size_bytes] [size_bytes])
                    eq_refl HA HD HV)). }
  split.
  { exact (proj1 (proj2 (container_kinds_apart root_db k k k TInt TInt TInt 1 st A D V V1
                    (elem_candidates 0) size_candidates eq_refl HA HD HV))). }
  split; [reflexivity|]. split; [reflexivity|].
  exact (proj1 (proj2 (proj2 (proj2 (proj2
           (container_kinds_apart root_db k k k TInt TInt TInt 1 st A D V V1
              (elem_candidates 0) size_candidates eq_refl HA HD HV)))
           eq_refl st))).
Defined.

(** * ArrayDB: iteration, membership, persistence *)











(** X8 ([pop] erases): a [pop] on a container that is not empty shortens
    it by one and deletes the entry of the index it removes: afterwards
    nothing is stored under that key.  (In a region resolved under V1,
    for an index other than 1936292453.) *)
Theorem ArrayDB_pop_erases (self self' : ArrayDB) (st st' : Store) (v : pyobj) :
  ArrayDB_pop self st = Ok (v, self', st') ->
  a_size self <> 0 ->
  resolve st (a_db self) = V2 \/ a_size self - 1 <> size_collision_index ->
  ArrayDB_len self' = ArrayDB_len self - 1 /\
  db_get st' (a_db self') (elem_candidates (a_size self - 1)) = None /\
  ArrayDB_get self (PyInt (a_size self - 1)) st = Ok v.
Proof.
  rewrite ArrayDB_pop_eq. intros Hpop Hne Hs.
  destruct (Z.eqb_spec (a_size self) 0); [contradiction|].
  destruct (ArrayDB_getitem self (PyInt (a_size self - 1)) st) as [x|] eqn:Eg;
    [|discriminate].
  injection Hpop as <- <- <-. split; [reflexivity|]. split; [|exact Eg].
  cbn [a_db]. rewrite db_get_put_ne.
  - apply db_get_delete_eq.
  - rewrite !location_delete. apply size_key_ne_elem, Hs.
Qed.

(** * DictDB and VarDB: what is written is what is read *)

(** In one database, the keys of two byte strings are equal only if the
    byte strings are, under either scheme. *)
Lemma entry_key_inj (s : Scheme) (db : Database) (a b : bytes) :
  full_key s db (mkCandidates [a] [rlp_encode_bytes a]) =
  full_key s db (mkCandidates [b] [rlp_encode_bytes b]) -> a = b.
Proof.
  destruct s; cbn; rewrite !app_nil_r; intros E; apply app_inv_head in E.
  - exact E.
  - apply rlp_encode_bytes_inj, E.
Qed.

Lemma DictDB_getitem_leaf (self : DictDB) (key : pyobj) (a : bytes) (st : Store) :
  d_depth self = 1 -> encode_key key = Ok a ->
  DictDB_getitem self key st =
  (v ← decode_object
         (db_get st (d_db self) (mkCandidates [a] [rlp_encode_bytes a]))
         (d_value_type self);
   Ok (ItemValue v)).
Proof.
  intros Hd Ha. unfold DictDB_getitem. rewrite Hd, (key_candidates_ok key a Ha).
  reflexivity.
Qed.

Lemma DictDB_contains_eq (self : DictDB) (key : pyobj) (a : bytes) (st : Store) :
  encode_key key = Ok a ->
  DictDB_contains self key st =
  Ok (bool_decide
        (is_Some (db_get st (d_db self) (mkCandidates [a] [rlp_encode_bytes a])))).
Proof.
  intros Ha. unfold DictDB_contains. rewrite (key_candidates_ok key a Ha). reflexivity.
Qed.

(** X9 ([DictDB] round trip): on a map of depth 1, after
    [self[key] = value] with a key [encode_key] accepts and a value of the
    value type, [self[key]] is [value] and [key in self] is [True]; for
    every key with another encoded form, [self[key']] and [key' in self]
    are what they were. *)
Theorem DictDB_set_then_get (self : DictDB) (key value : pyobj) (a : bytes)
    (st : Store) :
  d_depth self = 1 ->
  encode_key key = Ok a ->
  value_ok (d_value_type self) value ->
  exists st',
    DictDB_setitem self key value st = Ok st' /\
    DictDB_getitem self key st' = Ok (ItemValue value) /\
    DictDB_contains self key st' = Ok true /\
    forall key' a', encode_key key' = Ok a' -> a' <> a ->
      DictDB_getitem self key' st' = DictDB_getitem self key' st /\
      DictDB_contains self key' st' = DictDB_contains self key' st.
Proof.
  intros Hd Ha [Hty [b Hb]].
  exists (db_put st (d_db self) (mkCandidates [a] [rlp_encode_bytes a]) b).
  split; [|split; [|split]].
  - unfold DictDB_setitem. rewrite Hd, (key_candidates_ok key a Ha), Hb. reflexivity.
  - rewrite (DictDB_getitem_leaf self key a _ Hd Ha), db_get_put_eq, <- Hty.
    rewrite (encode_value_decode value b Hb). reflexivity.
  - rewrite (DictDB_contains_eq self key a _ Ha), db_get_put_eq. reflexivity.
  - intros key' a' Ha' Hne.
    rewrite !(DictDB_getitem_leaf self key' a' _ Hd Ha'),
      !(DictDB_contains_eq self key' a' _ Ha').
    rewrite db_get_put_ne; [split; reflexivity|].
    intros E. apply entry_key_inj in E. congruence.
Qed.

Lemma DictDB_set_then_get_witness :
  let self := mkDictDB (mkDatabase false [x01; x6d] [x01; x6d]) TStr 1 in
  let st := mkStore V2 ∅ ∅ in
  exists st',
    DictDB_setitem self (PyInt 7) (PyStr (pystr "seven")) st = Ok st' /\
    DictDB_getitem self (PyInt 7) st' = Ok (ItemValue (PyStr (pystr "seven"))) /\
    DictDB_contains self (PyInt 7) st' = Ok true /\
    DictDB_getitem self (PyInt 8) st' = Ok (ItemValue (PyStr [])).
Proof.
  intros self st.
  destruct (DictDB_set_then_get self (PyInt 7) (PyStr (pystr "seven")) [x07] st)
    as (st' & Hset & Hget & Hin & Hother).
  - reflexivity.
  - reflexivity.
  - split; [reflexivity|]. eexists. vm_compute. reflexivity.
  - exists st'. split; [exact Hset|]. split; [exact Hget|]. split; [exact Hin|].
    rewrite (proj1 (Hother (PyInt 8) [x08] eq_refl ltac:(discriminate))).
    vm_compute. reflexivity.
Defined.



Lemma DictDB_getitem_nested (self : DictDB) (key : pyobj) (a : bytes) (st : Store) :
  d_depth self <> 1 -> is_root (d_db self) = false -> encode_key key = Ok a ->
  DictDB_getitem self key st =
  Ok (ItemDict (mkDictDB
        (get_sub_db (d_db self) (mkCandidates [a] [rlp_encode_bytes a]))
        (d_value_type self) (d_depth self - 1))).
Proof.
  intros Hd Hr Ha. unfold DictDB_getitem, DictDB_init.
  destruct (Z.eqb_spec (d_depth self) 1); [contradiction|].
  rewrite Hr, (key_candidates_ok key a Ha). reflexivity.
Qed.



(** The prefix of the sub-database of a key, under a scheme. *)
Lemma sub_db_prefix_key (s : Scheme) (db : Database) (a : bytes) :
  db_prefix s (get_sub_db db (mkCandidates [a] [rlp_encode_bytes a])) =
  db_prefix s db ++ [] ++ key_form s a.
Proof. destruct s; cbn; rewrite app_nil_r; reflexivity. Qed.

(** No key below one sub-database is a key below the other. *)
Lemma sub_regions_apart (db : Database) (sa sb : Scheme) (a b x y : bytes) :
  separate db [] sa sb a b ->
  db_prefix sa (get_sub_db db (mkCandidates [a] [rlp_encode_bytes a])) ++ x <>
  db_prefix sb (get_sub_db db (mkCandidates [b] [rlp_encode_bytes b])) ++ y.
Proof. rewrite !sub_db_prefix_key. apply separate_apart. Qed.

(** X12 (sub-maps apart): on a map built with depth 2, for first-level
    keys whose encoded forms keep the two sub-maps apart under the schemes
    the store resolves them with ([separate]: both under V2, different;
    both under V1, neither a prefix of the other; under two different
    schemes, sub-map prefixes neither of which is a prefix of the other),
    writing [self[k1][k2] = value] changes no [self[k1'][k2']]. *)
Theorem DictDB_submaps_apart (var_key : pyobj) (db : Database)
    (value_type : pytype) (outer : DictDB) (k1 k1' k2 k2' value : pyobj)
    (a1 a1' : bytes) (st st' : Store) (inner inner' : DictDB) :
  DictDB_init var_key db value_type 2 = Ok outer ->
  encode_key k1 = Ok a1 -> encode_key k1' = Ok a1' ->
  DictDB_getitem outer k1 st = Ok (ItemDict inner) ->
  DictDB_getitem outer k1' st = Ok (ItemDict inner') ->
  separate (d_db outer) [] (resolve st (d_db inner)) (resolve st (d_db inner'))
    a1 a1' ->
  DictDB_setitem inner k2 value st = Ok st' ->
  DictDB_getitem inner' k2' st' = DictDB_getitem inner' k2' st /\
  DictDB_contains inner' k2' st' = DictDB_contains inner' k2' st.
Proof.
  intros Hinit H1 H1' Hnav Hnav'.
  destruct (DictDB_init_fields _ _ _ _ _ Hinit) as (Hr & Hvt & Hd).
  rewrite (DictDB_getitem_nested outer k1 a1 st) in Hnav by (lia || assumption).
  rewrite (DictDB_getitem_nested outer k1' a1' st) in Hnav' by (lia || assumption).
  injection Hnav as <-. injection Hnav' as <-. rewrite Hd in *.
  cbn [d_db]. intros Hsep.
  unfold DictDB_setitem, DictDB_getitem, DictDB_contains.
  cbn [d_depth d_db d_value_type]. replace (2 - 1 =? 1) with true by reflexivity.
  cbn [negb]. destruct (key_candidates k2) as [kc|]; [|discriminate].
  cbn. destruct (encode_value value) as [b|]; [|discriminate].
  cbn. intros [= <-].
  destruct (key_candidates k2') as [kc'|]; [|split; reflexivity].
  cbn. rewrite db_get_put_ne; [split; reflexivity|].
  rewrite !location_eq. unfold region. apply sub_regions_apart, Hsep.
Qed.

(** A store that writes new data under V2 and where the location of the
    sub-map of ['a'] is active under V1; the sub-map of ['b'] holds 7
    under the key 200.  After [self['a'][200] = 5], [self['b'][200]] is
    still 7. *)
Lemma DictDB_submaps_apart_witness :
  let outer := mkDictDB (mkDatabase false [x01; x6d] [x01; x6d]) TInt 2 in
  let inner := mkDictDB (mkDatabase false [x01; x6d; x61] [x01; x6d; x61]) TInt 1 in
  let inner' := mkDictDB (mkDatabase false [x01; x6d; x62] [x01; x6d; x62]) TInt 1 in
  let st := db_put (mkStore V2 {[ [x01; x6d; x61] := V1 ]} ∅)
              (d_db inner') (elem_candidates 200) (int_to_bytes 7) in
  let st' := db_put st (d_db inner) (elem_candidates 200) (int_to_bytes 5) in
  DictDB_init (PyStr (pystr "m")) root_db TInt 2 = Ok outer /\
  DictDB_getitem outer (PyStr (pystr "a")) st = Ok (ItemDict inner) /\
  DictDB_getitem outer (PyStr (pystr "b")) st = Ok (ItemDict inner') /\
  resolve st (d_db inner) = V1 /\ resolve st (d_db inner') = V2 /\
  separate (d_db outer) [] (resolve st (d_db inner)) (resolve st (d_db inner'))
    [x61] [x62] /\
  DictDB_setitem inner (PyInt 200) (PyInt 5) st = Ok st' /\
  DictDB_getitem inner (PyInt 200) st' = Ok (ItemValue (PyInt 5)) /\
  DictDB_getitem inner' (PyInt 200) st = Ok (ItemValue (PyInt 7)) /\
  DictDB_getitem inner' (PyInt 200) st' = Ok (ItemValue (PyInt 7)).
Proof.
  intros outer inner inner' st st'.
  assert (Ho : DictDB_init (PyStr (pystr "m")) root_db TInt 2 = Ok outer)
    by (vm_compute; reflexivity).
  assert (Hn : DictDB_getitem outer (PyStr (pystr "a")) st = Ok (ItemDict inner))
    by (vm_compute; reflexivity).
  assert (Hn' : DictDB_getitem outer (PyStr (pystr "b")) st = Ok (ItemDict inner'))
    by (vm_compute; reflexivity).
  assert (Hs : resolve st (d_db inner) = V1) by reflexivity.
  assert (Hs' : resolve st (d_db inner') = V2) by reflexivity.
  assert (Hsep : separate (d_db outer) [] (resolve st (d_db inner))
                   (resolve st (d_db inner')) [x61] [x62]).
  { rewrite Hs, Hs'. apply separate_cross; [reflexivity|discriminate|].
    split; intros [k Hk]; discriminate Hk. }
  assert (Hset : DictDB_setitem inner (PyInt 200) (PyInt 5) st = Ok st') by reflexivity.
  assert (H7 : DictDB_getitem inner' (PyInt 200) st = Ok (ItemValue (PyInt 7)))
    by (vm_compute; reflexivity).
  split; [exact Ho|]. split; [exact Hn|]. split; [exact Hn'|].
  split; [exact Hs|]. split; [exact Hs'|]. split; [exact Hsep|].
  split; [exact Hset|]. split; [vm_compute; reflexivity|]. split; [exact H7|].
  rewrite <- H7.
  exact (proj1 (DictDB_submaps_apart (PyStr (pystr "m")) root_db TInt outer
                  (PyStr (pystr "a")) (PyStr (pystr "b")) (PyInt 200) (PyInt 200)
                  (PyInt 5) [x61] [x62] st st' inner inner'
                  Ho eq_refl eq_refl Hn Hn' Hsep Hset)).
Defined.

(** X13 ([VarDB] round trip): after [set(value)] with a value of the
    value type, [get()] is [value].  Every scalar of the same database
    (one region, which the store resolves once) whose key has another
    encoded form reads what it read before; and so does every scalar of
    any database whose location, as the store resolves it, is another
    one. *)
Theorem VarDB_set_then_get (var_key : pyobj) (db : Database)
    (value_type : pytype) (self : VarDB) (value : pyobj) (a : bytes)
    (st : Store) :
  VarDB_init var_key db value_type = Ok self ->
  encode_key var_key = Ok a ->
  value_ok value_type value ->
  exists st',
    VarDB_set self value st = Ok st' /\
    VarDB_get self st' = Ok value /\
    (forall var_key' value_type' other a',
       VarDB_init var_key' db value_type' = Ok other ->
       encode_key var_key' = Ok a' -> a' <> a ->
       VarDB_get other st' = VarDB_get other st) /\
    (forall var_key' db' value_type' other,
       VarDB_init var_key' db' value_type' = Ok other ->
       location st (v_db other) (v_var_byte_key other) <>
         location st (v_db self) (v_var_byte_key self) ->
       VarDB_get other st' = VarDB_get other st).
Proof.
  intros Hinit Ha [Hty [b Hb]].
  unfold VarDB_init in Hinit. rewrite (key_candidates_ok var_key a Ha) in Hinit.
  cbn in Hinit. injection Hinit as <-.
  eexists. split; [unfold VarDB_set; rewrite Hb; reflexivity|].
  cbn [v_db v_var_byte_key]. split; [|split].
  - unfold VarDB_get. cbn [v_db v_var_byte_key v_value_type].
    rewrite db_get_put_eq, <- Hty. apply encode_value_decode, Hb.
  - intros var_key' value_type' other a' Hinit' Ha' Hne.
    unfold VarDB_init in Hinit'. rewrite (key_candidates_ok var_key' a' Ha') in Hinit'.
    cbn in Hinit'. injection Hinit' as <-.
    unfold VarDB_get. cbn [v_db v_var_byte_key v_value_type].
    rewrite db_get_put_ne; [reflexivity|].
    intros E. apply entry_key_inj in E. congruence.
  - intros var_key' db' value_type' other _ Hne.
    unfold VarDB_get. rewrite db_get_put_ne; [reflexivity|].
    intros E. apply Hne. symmetry. exact E.
Qed.

(** The scalar ['y'] holds 3; after [set(True)] on the scalar ['x'],
    ['x'] reads [True] and ['y'] still reads 3. *)
Lemma VarDB_set_then_get_witness :
  let self := mkVarDB (mkDatabase false [x02] [x02])
                (mkCandidates [[x78]] [[x78]]) TBool in
  let other := mkVarDB (mkDatabase false [x02] [x02])
                 (mkCandidates [[x79]] [[x79]]) TInt in
  let st := db_put (mkStore V2 ∅ ∅) (v_db other) (v_var_byte_key other)
              (int_to_bytes 3) in
  VarDB_init (PyStr (pystr "x")) root_db TBool = Ok self /\
  VarDB_init (PyStr (pystr "y")) root_db TInt = Ok other /\
  VarDB_get other st = Ok (PyInt 3) /\
  exists st',
    VarDB_set self (PyBool true) st = Ok st' /\
    VarDB_get self st' = Ok (PyBool true) /\
    VarDB_get other st' = Ok (PyInt 3).
Proof.
  intros self other st.
  assert (Hinit : VarDB_init (PyStr (pystr "x")) root_db TBool = Ok self)
    by (vm_compute; reflexivity).
  assert (Hinit' : VarDB_init (PyStr (pystr "y")) root_db TInt = Ok other)
    by (vm_compute; reflexivity).
  assert (H3 : VarDB_get other st = Ok (PyInt 3)) by (vm_compute; reflexivity).
  split; [exact Hinit|]. split; [exact Hinit'|]. split; [exact H3|].
  destruct (VarDB_set_then_get (PyStr (pystr "x")) root_db TBool self (PyBool true)
              [x78] st Hinit eq_refl) as (st' & Hset & Hget & Hother & _).
  - split; [reflexivity|]. eexists. reflexivity.
  - exists st'. split; [exact Hset|]. split; [exact Hget|].
    rewrite <- H3.
    exact (Hother (PyStr (pystr "y")) TInt other [x79] Hinit' eq_refl
             ltac:(discriminate)).
Defined.

(** Two scalars whose encoded keys differ share one entry when their
    databases resolve under different schemes: the key [80], framed to
    [81 80] under V2, and the key [81 80] under V1.  In a store that
    writes new data under V1 and where the location [02] is active under
    V2, the scalars of the root database resolve under V2 and those of the
    sub-database of the empty key under V1; [set(7)] on the first changes
    what the second reads from 0 to 7. *)
Lemma cross_scheme_scalars_overlap :
  let st := mkStore V1 {[ [x02] := V2 ]} ∅ in
  exists sub self other st',
    key_candidates (PyBytes []) = Ok sub /\
    VarDB_init (PyBytes [x80]) root_db TInt = Ok self /\
    VarDB_init (PyBytes [x81; x80]) (get_sub_db root_db sub) TInt = Ok other /\
    resolve st (v_db self) = V2 /\ resolve st (v_db other) = V1 /\
    location st (v_db self) (v_var_byte_key self) =
      location st (v_db other) (v_var_byte_key other) /\
    VarDB_set self (PyInt 7) st = Ok st' /\
    VarDB_get other st = Ok (PyInt 0) /\
    VarDB_get other st' = Ok (PyInt 7).
Proof.
  intros st. do 4 eexists.
  split; [reflexivity|]. split; [vm_compute; reflexivity|].
  split; [vm_compute; reflexivity|].
  split; [reflexivity|]. split; [reflexivity|]. split; [vm_compute; reflexivity|].
  split; [reflexivity|]. split; vm_compute; reflexivity.
Qed.

(** * Whole containers *)

(** The two inner loops of [put_pair] are [__put_to_db_internal] on the
    sub-database. *)
Lemma put_pair_dict (db : Database) (key : pyobj) (kc : candidates)
    (items : list (pyobj * pyvalue)) (st : Store) :
  key_candidates key = Ok kc ->
  put_pair db key (PDict items) st = put_to_db_internal (get_sub_db db kc) items st.
Proof.
  intros Hk. cbn [put_pair]. rewrite Hk. revert st.
  induction items as [|[k v] rest IH]; intros st; [reflexivity|].
  cbn [put_to_db_internal]. destruct (put_pair (get_sub_db db kc) k v st) as [st1 [e|]];
    [reflexivity|]. apply IH.
Qed.

Lemma put_pair_seq (db : Database) (key : pyobj) (kc : candidates)
    (items : list pyvalue) (st : Store) :
  key_candidates key = Ok kc ->
  put_pair db key (PSeq items) st =
  put_to_db_internal (get_sub_db db kc) (enumerate_from 0 items) st.
Proof.
  intros Hk. cbn [put_pair]. rewrite Hk. generalize 0. revert st.
  induction items as [|v rest IH]; intros st i; [reflexivity|].
  cbn [put_to_db_internal enumerate_from].
  destruct (put_pair (get_sub_db db kc) (PyInt i) v st) as [st1 [e|]];
    [reflexivity|]. apply IH.
Qed.

Lemma put_pair_leaf (db : Database) (key v : pyobj) (kc : candidates) (b : bytes)
    (st : Store) :
  key_candidates key = Ok kc -> encode_value v = Ok b ->
  put_pair db key (PLeaf v) st = (db_put st db kc b, None).
Proof. intros Hk Hb. cbn [put_pair]. rewrite Hk, Hb. reflexivity. Qed.

Lemma key_candidates_encodes (key : pyobj) :
  (exists b, encode_key key = Ok b) -> exists kc, key_candidates key = Ok kc.
Proof. intros [b Hb]. eexists. apply (key_candidates_ok key b Hb). Qed.

Lemma get_from_db_eq (db : Database) (db_key : pyobj) (args : list pyobj)
    (last : pyobj) (vt : pytype) (st : Store) (kc kl : candidates)
    (sub : Database) :
  key_candidates db_key = Ok kc ->
  descend (get_sub_db db kc) args = Ok sub ->
  key_candidates last = Ok kl ->
  get_from_db db db_key args last vt st = decode_object (db_get st sub kl) vt.
Proof.
  intros Hk Hd Hl. unfold get_from_db. rewrite Hk. unfold mbind, result_bind.
  rewrite Hd, Hl. destruct (db_get st sub kl); reflexivity.
Qed.

(** Writing the dict of a path writes one entry, in the sub-database the
    path leads to. *)
Lemma put_nested_dict (path : list pyobj) (last v : pyobj) (kl : candidates)
    (b : bytes) :
  key_candidates last = Ok kl -> encode_value v = Ok b ->
  keys_encode path ->
  forall (db : Database) (key : pyobj) (kc : candidates) (st : Store),
  key_candidates key = Ok kc ->
  exists sub,
    descend (get_sub_db db kc) path = Ok sub /\
    put_pair db key (nested_dict path last v) st = (db_put st sub kl b, None).
Proof.
  intros Hl Hb. induction 1 as [|a rest Ha _ IH]; intros db key kc st Hk.
  - exists (get_sub_db db kc). split; [reflexivity|].
    cbn [nested_dict]. rewrite (put_pair_dict db key kc _ st Hk).
    cbn [put_to_db_internal]. rewrite (put_pair_leaf _ last v kl b st Hl Hb). reflexivity.
  - destruct (key_candidates_encodes a Ha) as [ka Hka].
    destruct (IH (get_sub_db db kc) a ka st Hka) as (sub & Hd & Hp).
    exists sub. split; [cbn [descend]; rewrite Hka; exact Hd|].
    cbn [nested_dict]. rewrite (put_pair_dict db key kc _ st Hk).
    cbn [put_to_db_internal]. rewrite Hp. reflexivity.
Qed.

(** X14 (a path written is the path read): for a key [db_key], a path of
    keys [a1 .. an], a last key and a value that the codec accepts,
    [put_to_db(db, db_key, {a1: {a2: ... {last: v}}})] raises nothing and
    then [get_from_db(db, db_key, a1, .., an, last, value_type=type(v))]
    returns [v]. *)
Theorem put_to_db_then_get_from_db (db : Database) (db_key : pyobj)
    (path : list pyobj) (last v : pyobj) (st : Store) :
  (exists b, encode_key db_key = Ok b) ->
  keys_encode path ->
  (exists b, encode_key last = Ok b) ->
  (exists b, encode_value v = Ok b) ->
  exists st',
    put_to_db db db_key (nested_dict path last v) st = (st', None) /\
    get_from_db db db_key path last (type_of v) st' = Ok v.
Proof.
  intros Hk Hpath Hl [b Hb].
  destruct (key_candidates_encodes db_key Hk) as [kc Hkc].
  destruct (key_candidates_encodes last Hl) as [kl Hkl].
  destruct (put_nested_dict path last v kl b Hkl Hb Hpath db db_key kc st Hkc)
    as (sub & Hd & Hp).
  exists (db_put st sub kl b). split.
  - unfold put_to_db. rewrite Hkc.
    destruct (nested_dict path last v) as [x|items|items] eqn:E.
    + destruct path; discriminate E.
    + rewrite <- (put_pair_dict db db_key kc items st Hkc). exact Hp.
    + destruct path; discriminate E.
  - rewrite (get_from_db_eq db db_key path last _ _ kc kl sub Hkc Hd Hkl).
    rewrite db_get_put_eq. apply encode_value_decode, Hb.
Qed.

Lemma put_to_db_then_get_from_db_witness :
  let st := mkStore V2 ∅ ∅ in
  let path := [PyStr (pystr "a"); PyInt 2] in
  keys_encode path /\
  exists st',
    put_to_db root_db (PyStr (pystr "cfg")) (nested_dict path (PyBytes [x01]) (PyInt 7)) st
      = (st', None) /\
    get_from_db root_db (PyStr (pystr "cfg")) path (PyBytes [x01]) TInt st'
      = Ok (PyInt 7).
Proof.
  intros st path.
  assert (Hp : keys_encode path) by (repeat constructor; eexists; reflexivity).
  split; [exact Hp|].
  exact (put_to_db_then_get_from_db root_db (PyStr (pystr "cfg")) path (PyBytes [x01])
           (PyInt 7) st (ex_intro _ _ eq_refl) Hp (ex_intro _ _ eq_refl)
           (ex_intro _ _ eq_refl)).
Defined.

(** Writing a run of leaves from index [start] on. *)
Lemma put_leaves (vt : pytype) (sub : Database) (vs : list pyobj) :
  Forall (value_ok vt) vs ->
  forall (start : Z) (st : Store),
  exists st',
    put_to_db_internal sub (enumerate_from start (map PLeaf vs)) st = (st', None) /\
    (forall d, resolve st' d = resolve st d) /\
    (forall (i : nat) (v : pyobj), vs !! i = Some v ->
       decode_object (db_get st' sub (elem_candidates (start + Z.of_nat i))) vt = Ok v) /\
    (forall j, j < start ->
       db_get st' sub (elem_candidates j) = db_get st sub (elem_candidates j)).
Proof.
  induction 1 as [|v vs [Hty [b Hb]] _ IH]; intros start st.
  - exists st. split; [reflexivity|]. split; [reflexivity|].
    split; [intros i v Hi; discriminate Hi|auto].
  - cbn [map enumerate_from put_to_db_internal].
    rewrite (put_pair_leaf sub (PyInt start) v _ b st (key_candidates_int start) Hb).
    destruct (IH (start + 1) (db_put st sub (elem_candidates start) b)) as
      (st' & Hrun & Hs & Hread & Hold).
    exists st'. split; [exact Hrun|]. split; [intros d; rewrite Hs; reflexivity|]. split.
    + intros [|i] v' Hi.
      * injection Hi as <-. rewrite Z.add_0_r, Hold by lia.
        rewrite db_get_put_eq, <- Hty. apply encode_value_decode, Hb.
      * replace (start + Z.of_nat (S i)) with (start + 1 + Z.of_nat i) by lia.
        apply Hread. exact Hi.
    + intros j Hj. rewrite Hold by lia. apply db_get_put_ne.
      intros E. apply elem_key_inj in E. lia.
Qed.



Lemma put_to_db_internal_app (db : Database) (xs ys : list (pyobj * pyvalue))
    (st st1 : Store) :
  put_to_db_internal db xs st = (st1, None) ->
  put_to_db_internal db (xs ++ ys) st = put_to_db_internal db ys st1.
Proof.
  revert st. induction xs as [|[k v] xs IH]; intros st.
  - intros [= <-]. reflexivity.
  - cbn [put_to_db_internal app].
    destruct (put_pair db k v st) as [st2 [e|]]; [discriminate|]. apply IH.
Qed.

Lemma enumerate_from_app (start : Z) (xs ys : list pyvalue) :
  enumerate_from start (xs ++ ys) =
  enumerate_from start xs ++ enumerate_from (start + Z.of_nat (length xs)) ys.
Proof.
  revert start. induction xs as [|x xs IH]; intros start.
  - cbn. rewrite Z.add_0_r. reflexivity.
  - cbn [enumerate_from app length]. rewrite IH. do 3 f_equal. lia.
Qed.

(** X16 (no rollback): when [put_to_db] is given a list whose element
    after the values [vs] is one [encode_value] rejects, it raises that
    exception and the values before it stay written: the store is the one
    [put_to_db] leaves for [vs] alone, and [get_from_db] returns [vs[i]]
    for every index of [vs]. *)
Theorem put_to_db_raises_midway (db : Database) (db_key : pyobj)
    (value_type : pytype) (vs : list pyobj) (bad : pyobj)
    (rest : list pyvalue) (e : exn) (st : Store) :
  (exists b, encode_key db_key = Ok b) ->
  Forall (value_ok value_type) vs ->
  encode_value bad = Raise e ->
  exists st',
    put_to_db db db_key (PSeq (map PLeaf vs ++ PLeaf bad :: rest)) st = (st', Some e) /\
    put_to_db db db_key (PSeq (map PLeaf vs)) st = (st', None) /\
    forall (i : nat) (v : pyobj), vs !! i = Some v ->
      get_from_db db db_key [] (PyInt (Z.of_nat i)) value_type st' = Ok v.
Proof.
  intros Hk Hvs Hbad. destruct (key_candidates_encodes db_key Hk) as [kc Hkc].
  destruct (put_leaves value_type (get_sub_db db kc) vs Hvs 0 st) as
    (st' & Hrun & _ & Hread & _).
  exists st'. split; [|split].
  - unfold put_to_db. rewrite Hkc, enumerate_from_app.
    rewrite (put_to_db_internal_app _ _ _ st st' Hrun).
    cbn [enumerate_from put_to_db_internal put_pair].
    rewrite key_candidates_int, Hbad. reflexivity.
  - unfold put_to_db. rewrite Hkc. exact Hrun.
  - intros i v Hi.
    rewrite (get_from_db_eq db db_key [] (PyInt (Z.of_nat i)) value_type st' kc
               (elem_candidates (Z.of_nat i)) (get_sub_db db kc) Hkc eq_refl
               (key_candidates_int _)).
    exact (Hread i v Hi).
Qed.

Lemma put_to_db_raises_midway_witness :
  let st := mkStore V2 ∅ ∅ in
  let vs := [PyInt 1; PyInt 2] in
  Forall (value_ok TInt) vs /\
  exists st' msg,
    put_to_db root_db (PyStr (pystr "l"))
      (PSeq (map PLeaf vs ++ PLeaf PyNone :: [PLeaf (PyInt 4)])) st
      = (st', Some (InvalidParamsException msg)) /\
    get_from_db root_db (PyStr (pystr "l")) [] (PyInt 1) TInt st' = Ok (PyInt 2) /\
    get_from_db root_db (PyStr (pystr "l")) [] (PyInt 3) TInt st' = Ok (PyInt 0).
Proof.
  intros st vs.
  assert (Hvs : Forall (value_ok TInt) vs).
  { repeat constructor; eexists; reflexivity. }
  split; [exact Hvs|].
  destruct (put_to_db_raises_midway root_db (PyStr (pystr "l")) TInt vs PyNone
              [PLeaf (PyInt 4)] _ st (ex_intro _ _ eq_refl) Hvs eq_refl)
    as (st' & Hput & Hsame & Hget).
  exists st'. eexists. split; [exact Hput|]. split; [exact (Hget 1%nat _ eq_refl)|].
  revert Hsame. unfold put_to_db. cbn [map enumerate_from put_to_db_internal].
  vm_compute key_candidates. cbn [put_pair]. vm_compute key_candidates.
  vm_compute encode_value. intros [= <-]. vm_compute. reflexivity.
Defined.




(** [put(7)] on an empty container, then [pop()]. *)
Lemma ArrayDB_pop_erases_witness :
  let st := mkStore V2 ∅ ∅ in
  let self := mkArrayDB (mkDatabase false [x00; x61] [x00; x61]) TInt 0 in
  exists self1 st1 self2 st2,
    ArrayDB_put self (PyInt 7) st = Ok (self1, st1) /\
    ArrayDB_pop self1 st1 = Ok (PyInt 7, self2, st2) /\
    a_size self1 <> 0 /\
    ArrayDB_len self2 = 0 /\
    db_get st1 (a_db self1) (elem_candidates 0) = Some [x07] /\
    db_get st2 (a_db self2) (elem_candidates 0) = None.
Proof.
  intros st self.
  set (st1 := db_put (db_put st (a_db self) (elem_candidates 0) (int_to_bytes 7))
                (a_db self) size_candidates (int_to_bytes 1)).
  set (self1 := mkArrayDB (a_db self) TInt 1).
  set (st2 := db_put (db_delete st1 (a_db self) (elem_candidates 0))
                (a_db self) size_candidates (int_to_bytes 0)).
  assert (Hput : ArrayDB_put self (PyInt 7) st = Ok (self1, st1))
    by (rewrite ArrayDB_put_eq; reflexivity).
  assert (Hpop : ArrayDB_pop self1 st1 = Ok (PyInt 7, mkArrayDB (a_db self) TInt 0, st2)).
  { rewrite ArrayDB_pop_eq. cbn [a_size self1 Z.eqb].
    replace (ArrayDB_getitem self1 (PyInt (1 - 1)) st1) with (@Ok pyobj (PyInt 7))
      by (vm_compute; reflexivity).
    reflexivity. }
  assert (Hne : a_size self1 <> 0) by discriminate.
  destruct (ArrayDB_pop_erases self1 _ st1 st2 (PyInt 7) Hpop Hne (or_introl eq_refl))
    as (Hlen & Hgone & _).
  exists self1, st1, (mkArrayDB (a_db self) TInt 0), st2.
  split; [exact Hput|]. split; [exact Hpop|]. split; [exact Hne|].
  split; [exact Hlen|]. split; [vm_compute; reflexivity|exact Hgone].
Defined.
